(** * pandevice.firewall: the Firewall device object

    A shallow embedding of [src/pandevice/firewall.py].  Python objects
    live in a store and are named by addresses, dictionaries are finite
    maps, methods are state transformers that either return a value or
    raise, and every call made on the transport ([self.xapi]) is appended
    to a trace. *)

From Stdlib Require Import Ascii String.
From stdpp Require Import gmap strings list.

Local Open Scope string_scope.

(** ** Python values *)

Module Py.

(** The documents produced by [PanConfig.python()] and the values stored
    in attributes: [None], strings, lists and string-keyed dictionaries. *)
#[warnings="-register-all"]
Inductive pyval : Type :=
| PyNone
| PyStr (s : string)
| PyList (l : list pyval)
| PyDict (d : gmap string pyval).

(** Hashable values used as dictionary keys by this module: [None] or a
    string. *)
Abbreviation pykey := (option string).

(** Exceptions.  [TypeError None] and the other constructors without a
    message are raised by the interpreter; a message is kept where the
    source gives one. *)
Inductive exn : Type :=
| KeyError (key : string)
| TypeError (msg : option string)
| AttributeError
| PanDeviceError (msg : string)
| PanXapiError (msg : string)
| InvalidReference.

(** [bool(v)] *)
Definition truthy (v : pyval) : bool :=
  match v with
  | PyNone => false
  | PyStr s => negb (String.eqb s "")
  | PyList l => match l with [] => false | _ :: _ => true end
  | PyDict d => negb (bool_decide (d = ∅))
  end.

(** [v[k]] for a string [k]: only a dictionary can be subscripted by a
    string; a missing key is a [KeyError]. *)
Definition getitem (v : pyval) (k : string) : exn + pyval :=
  match v with
  | PyDict d =>
      match d !! k with
      | Some x => inr x
      | None => inl (KeyError k)
      end
  | _ => inl (TypeError None)
  end.

(** [v.get(k, dflt)]: only dictionaries have [get]. *)
Definition get (v : pyval) (k : string) (dflt : pyval) : exn + pyval :=
  match v with
  | PyDict d => inr (default dflt (d !! k))
  | _ => inl AttributeError
  end.

Fixpoint chars (s : string) : list pyval :=
  match s with
  | EmptyString => []
  | String c r => PyStr (String c EmptyString) :: chars r
  end.

(** The items a [for] loop visits: the elements of a list, the characters
    of a string, the keys of a dictionary; [None] is not iterable. *)
Definition iter (v : pyval) : exn + list pyval :=
  match v with
  | PyNone => inl (TypeError None)
  | PyStr s => inr (chars s)
  | PyList l => inr l
  | PyDict d => inr (PyStr <$> (map_to_list d).*1)
  end.

(** Use of a value as a dictionary key: lists and dictionaries are
    unhashable. *)
Definition hash_key (v : pyval) : exn + pykey :=
  match v with
  | PyNone => inr None
  | PyStr s => inr (Some s)
  | PyList _ | PyDict _ => inl (TypeError None)
  end.

(** [s.split(sep, 1)]: [Some (before, after)] when [sep] occurs in [s]
    (a two-element list), [None] when it does not (the one-element list
    [[s]]). *)
Fixpoint split1 (sep : Ascii.ascii) (s : string) : option (string * string) :=
  match s with
  | EmptyString => None
  | String c r =>
      if Ascii.eqb c sep then Some (EmptyString, r)
      else match split1 sep r with
           | Some (a, b) => Some (String c a, b)
           | None => None
           end
  end.

End Py.
Import Py.

(** Python expressions that may raise, in sequence. *)
#[export] Instance exn_ret : MRet (sum exn) := λ A a, inr a.
#[export] Instance exn_bind : MBind (sum exn) :=
  λ A B k r, match r with inl e => inl e | inr a => k a end.

(** ** The transport and the other collaborators

    [pan.xapi], [pan.config] and [xml.etree] are external libraries.  The
    calls this module makes on the transport object are recorded as
    data. *)

Inductive XapiCall : Type :=
| XOp (cmd : option string) (vsys : option string) (cmd_xml : bool)
      (extra_qs : option string)
| XSet (xpath element : string)
| XDelete (xpath : string).

(** An [xml.etree.ElementTree] element under construction. *)
#[warnings="-register-all"]
Inductive etree : Type :=
| Element (tag : string) (attrib : list (string * string))
          (text : option string) (children : list etree).

(** [SubElement(parent, tag).text = text] *)
Definition SubElement (parent : etree) (tag : string) (txt : string) : etree :=
  match parent with
  | Element t a x cs => Element t a x (cs ++ [Element tag [] (Some txt) []])
  end.

(** What the external libraries do is left open: the transport has a
    state of its own, a call on it either raises or not and moves that
    state, and [element_root] is the parsed root of its last response.
    [python] is [PanConfig(e).python()], [ET_tostring] is [ET.tostring].
    [ConfigChanged] is the type of the attribute in which the base class
    records that the configuration changed. *)
Class External : Type := {
  Transport : Type;
  XmlElement : Type;
  xapi_call : XapiCall → Transport → option exn * Transport;
  element_root : Transport → XmlElement;
  python : XmlElement → pyval;
  ET_tostring : etree → string;
  ConfigChanged : Type;
}.

(** ** Objects *)

(** Addresses of Python objects. *)
Abbreviation loc := positive.

(** [network.Interface]: the attributes this module reads or writes.  The
    class itself is in [network.py]. *)
Record Interface : Type := mkInterface {
  name : pykey;
  zone : pyval;
  router : pyval;
  subnets : list pyval;
  state : pyval;
  parent : option loc;
  subinterfaces : gmap pykey loc;
  pan_device : option loc;
}.

Definition set_pan_device (d : option loc) (i : Interface) : Interface :=
  mkInterface (name i) (zone i) (router i) (subnets i) (state i)
              (parent i) (subinterfaces i) d.

(** A [Panorama] object, as far as [generate_xapi] looks into it. *)
Record Panorama : Type := mkPanorama {
  pano_hostname : option string;
  pano_api_key : option string;
  pano_port : Z;
}.

Section Model.
Context `{Ext : External}.

(** The [Firewall] object: [id] is its address, [hostname] to
    [classify_exceptions] are attributes set by [PanDevice.__init__], the
    rest by [Firewall.__init__]; [interfaces] is the dictionary from
    interface names to [Interface] objects. *)
Record Firewall : Type := mkFirewall {
  id : loc;
  hostname : option string;
  api_key : option string;
  port : Z;
  timeout : Z;
  classify_exceptions : bool;
  serial : option string;
  vsys : string;
  vsys_name : option string;
  panorama : option Panorama;
  multi_vsys : option bool;
  interfaces : gmap pykey loc;
  config_changed : ConfigChanged;
}.

Definition with_interfaces (m : gmap pykey loc) (f : Firewall) : Firewall :=
  mkFirewall (id f) (hostname f) (api_key f) (port f) (timeout f)
             (classify_exceptions f) (serial f) (vsys f) (vsys_name f)
             (panorama f) (multi_vsys f) m (config_changed f).

Definition with_config_changed (c : ConfigChanged) (f : Firewall) : Firewall :=
  mkFirewall (id f) (hostname f) (api_key f) (port f) (timeout f)
             (classify_exceptions f) (serial f) (vsys f) (vsys_name f)
             (panorama f) (multi_vsys f) (interfaces f) c.

Definition with_vsys (v : string) (f : Firewall) : Firewall :=
  mkFirewall (id f) (hostname f) (api_key f) (port f) (timeout f)
             (classify_exceptions f) (serial f) v (vsys_name f)
             (panorama f) (multi_vsys f) (interfaces f) (config_changed f).

(** Everything a method can read or write: the store of [Interface]
    objects, the firewall [self], its transport [self.xapi], and the
    trace of the calls made on the transport so far. *)
Record World : Type := mkWorld {
  store : gmap loc Interface;
  fw : Firewall;
  xapi : Transport;
  trace : list XapiCall;
}.

Definition with_store (s : gmap loc Interface) (w : World) : World :=
  mkWorld s (fw w) (xapi w) (trace w).

Definition with_fw (f : Firewall) (w : World) : World :=
  mkWorld (store w) f (xapi w) (trace w).

(** ** Methods as state transformers that may raise *)

Definition M (A : Type) : Type := World → (exn + A) * World.

Definition ret {A} (a : A) : M A := λ w, (inr a, w).
Definition raise {A} (e : exn) : M A := λ w, (inl e, w).
Definition bind {A B} (m : M A) (k : A → M B) : M B :=
  λ w, match m w with
       | (inr a, w') => k a w'
       | (inl e, w') => (inl e, w')
       end.
Definition lift {A} (r : exn + A) : M A :=
  match r with
  | inl e => raise e
  | inr a => ret a
  end.

#[export] Instance M_ret : MRet M := @ret.
#[export] Instance M_bind : MBind M := λ A B k m, bind m k.

Definition get_fw : M Firewall := λ w, (inr (fw w), w).
Definition put_fw (f : Firewall) : M unit := λ w, (inr (), with_fw f w).

(** Attribute access on the [Interface] at an address. *)
Definition deref (l : loc) : M Interface :=
  λ w, match store w !! l with
       | Some i => (inr i, w)
       | None => (inl InvalidReference, w)
       end.

(** [obj.pan_device = d] for the object at [l]. *)
Definition assign_pan_device (l : loc) (d : option loc) : M unit :=
  λ w, (inr (), with_store (alter (set_pan_device d) l (store w)) w).

(** A call on [self.xapi]: it is traced, moves the transport, and raises
    what the transport raises. *)
Definition xapi_do (c : XapiCall) : M unit :=
  λ w, let r := xapi_call c (xapi w) in
       (match r.1 with Some e => inl e | None => inr () end,
        mkWorld (store w) (fw w) r.2 (trace w ++ [c])).

(** ** The base classes

    [PanDevice] and [PanObject] are in [base.py] and [Interface] in
    [network.py].  What this module uses of them is kept abstract:
    [set_config_changed] is the method of that name, a step like any
    other, [xpath] is the property [self.xpath], [xpath_device] the method
    of that name, and [Interface_apply] and [Interface_delete] are the
    methods [apply] and [delete] of the interface at an address. *)
Class Base : Type := {
  set_config_changed : M unit;
  xpath : Firewall → string;
  xpath_device : Firewall → string;
  Interface_apply : loc → M unit;
  Interface_delete : loc → M unit;
}.

Context `{Bs : Base}.

(** ** [Firewall] *)

Definition xpath_vsys (f : Firewall) : string :=
  if String.eqb (vsys f) "shared" then "/config/shared"
  else "/config/devices/entry[@name='localhost.localdomain']/vsys/entry[@name='"
       +:+ vsys f +:+ "']".

Definition xpath_panorama (f : Firewall) : exn + string :=
  inl (PanDeviceError
         "Attempt to modify Panorama configuration on non-Panorama device").

(** [self.xapi.element_root] *)
Definition get_element_root : M XmlElement :=
  λ w, (inr (element_root (xapi w)), w).

(** The scope passed to the transport by [op]. *)
Definition op_vsys (f : Firewall) : string :=
  if String.eqb (vsys f) "shared" then "vsys1" else vsys f.

Definition op (cmd : option string) (cmd_xml : bool) (extra_qs : option string)
  : M XmlElement :=
  f ← get_fw;
  xapi_do (XOp cmd (Some (op_vsys f)) cmd_xml extra_qs);;
  get_element_root.

(** What [generate_xapi] returns: a transport it constructs itself, with
    the constructor and keyword arguments, or what the method of the
    super class returns. *)
Inductive XapiConstructor : Type := XapiWrapper | PanXapi.

Record XapiKwargs : Type := mkKwargs {
  kw_pan_device : option loc;
  kw_api_key : option string;
  kw_hostname : option string;
  kw_port : Z;
  kw_timeout : Z;
  kw_serial : string;
}.

Inductive XapiGenerated : Type :=
| Constructed (c : XapiConstructor) (k : XapiKwargs)
| SuperGenerateXapi.

Definition generate_xapi (f : Firewall) : XapiGenerated :=
  match panorama f, serial f with
  | Some p, Some s =>
      if classify_exceptions f then
        Constructed XapiWrapper
          (mkKwargs (Some (id f)) (pano_api_key p) (pano_hostname p)
                    (pano_port p) (timeout f) s)
      else
        Constructed PanXapi
          (mkKwargs None (pano_api_key p) (pano_hostname p)
                    (pano_port p) (timeout f) s)
  | _, _ => SuperGenerateXapi
  end.

Definition create : M unit :=
  f ← get_fw;
  if String.prefix "vsys" (vsys f) then
    let element := Element "entry" [("name", vsys f)] None [] in
    let element := match vsys_name f with
                   | Some n => SubElement element "display-name" n
                   | None => element
                   end in
    xapi_do (XSet (xpath_device f +:+ "/vsys") (ET_tostring element))
  else ret ().

Definition delete : M unit :=
  f ← get_fw;
  if String.prefix "vsys" (vsys f) then
    xapi_do (XDelete (xpath_device f +:+ "/vsys/entry[@name='" +:+ vsys f +:+ "']"))
  else ret ().

Definition add_address_object (name address description : string) : M unit :=
  set_config_changed;;
  f ← get_fw;
  let address_xpath := xpath f +:+ "/address/entry[@name='" +:+ name +:+ "']" in
  let element := "<ip-netmask>" +:+ address +:+ "</ip-netmask><description>"
                 +:+ description +:+ "</description>" in
  xapi_do (XSet address_xpath element).

Definition delete_address_object (name : string) : M unit :=
  set_config_changed;;
  f ← get_fw;
  let address_xpath := xpath f +:+ "/address/entry[@name='" +:+ name +:+ "']" in
  xapi_do (XDelete address_xpath).

(** An argument of [add_interface]: any Python object.  Either an
    instance of [Interface] (or of a subclass), by address, or a value of
    another type. *)
Inductive pyobj : Type :=
| AnInterface (l : loc)
| Other (v : pyval).

Definition set_index (k : pykey) (l : loc) : M unit :=
  λ w, (inr (), with_fw (with_interfaces (<[k := l]> (interfaces (fw w))) (fw w)) w).

(** [self.interfaces.pop(k, None)] *)
Definition pop_index (k : pykey) : M unit :=
  λ w, (inr (), with_fw (with_interfaces (base.delete k (interfaces (fw w))) (fw w)) w).

Definition add_interface (pan_interface : pyobj) (apply : bool) : M unit :=
  set_config_changed;;
  match pan_interface with
  | Other _ =>
      raise (TypeError (Some "set_interface argument must be of type Interface"))
  | AnInterface l =>
      i ← deref l;
      match parent i with
      | Some p =>
          pi ← deref p;
          f ← get_fw;
          match interfaces f !! name pi with
          | None => set_index (name pi) p
          | Some _ => ret ()
          end
      | None => ret ()
      end;;
      set_index (name i) l;;
      f ← get_fw;
      assign_pan_device l (Some (id f));;
      if apply then Interface_apply l else ret ()
  end.

Definition delete_interface (l : loc) (apply delete_empty_parent : bool) : M unit :=
  set_config_changed;;
  i ← deref l;
  pop_index (name i);;
  f ← get_fw;
  match pan_device i with
  | None => assign_pan_device l (Some (id f))
  | Some _ => ret ()
  end;;
  match (if delete_empty_parent then parent i else None) with
  | Some p =>
      pi ← deref p;
      if bool_decide (subinterfaces pi = ∅) then
        pop_index (name i);;
        if apply then Interface_delete p else ret ()
      else
        if apply then Interface_delete l else ret ()
  | None => if apply then Interface_delete l else ret ()
  end;;
  assign_pan_device l None.

(** *** [refresh_interfaces] *)

Definition dquote : string := String "034"%char EmptyString.

(** [self.xapi.op('show interface "all"', cmd_xml=True)] *)
Definition show_interface_all : XapiCall :=
  XOp (Some ("show interface " +:+ dquote +:+ "all" +:+ dquote)) None true None.

(** [response['response']['result']] *)
Definition envelope (response : pyval) : exn + pyval :=
  r ← getitem response "response";
  getitem r "result".

(** The first loop: [hw[hw_entry['name']] = hw_entry]. *)
Fixpoint hw_loop (hw_result : list pyval) (hw : gmap pykey pyval)
  : exn + gmap pykey pyval :=
  match hw_result with
  | [] => inr hw
  | hw_entry :: rest =>
      n ← getitem hw_entry "name";
      k ← hash_key n;
      hw_loop rest (<[k := hw_entry]> hw)
  end.

(** [entry['fwd'].split(":", 1)[1]], and [entry['fwd']] itself when the
    split has one element only ([IndexError]). *)
Definition entry_router (entry : pyval) : exn + pyval :=
  fwd ← getitem entry "fwd";
  match fwd with
  | PyStr s =>
      match split1 ":"%char s with
      | Some (_, r) => inr (PyStr r)
      | None => inr fwd
      end
  | _ => inl AttributeError
  end.

(** The arguments of [Interface(...)] for one entry, evaluated in the
    order of the call, and the key the object is stored under.  The
    attributes the call does not give ([parent], [subinterfaces],
    [pan_device]) are taken to start empty; the constructor is in
    [network.py], and no property below rests on these three. *)
Definition new_interface (hw : gmap pykey pyval) (entry : pyval)
  : exn + pykey * Interface :=
  rt ← entry_router entry;
  n ← getitem entry "name";
  z ← getitem entry "zone";
  ip ← getitem entry "ip";
  k ← hash_key n;
  st ← get (default (PyDict ∅) (hw !! k)) "state" PyNone;
  inr (k, mkInterface k z rt [ip] st None ∅ None).

(** A new object gets an address no object has. *)
Definition alloc (i : Interface) : M loc :=
  λ w, let l := fresh ({[id (fw w)]} ∪ dom (store w)) in
       (inr l, with_store (<[l := i]> (store w)) w).

(** The second loop: [interfaces[entry['name']] = Interface(...)]. *)
Fixpoint ifnet_loop (hw : gmap pykey pyval) (if_result : list pyval)
  (interfaces : gmap pykey loc) : M (gmap pykey loc) :=
  match if_result with
  | [] => ret interfaces
  | entry :: rest =>
      ki ← lift (new_interface hw entry);
      l ← alloc ki.2;
      ifnet_loop hw rest (<[ki.1 := l]> interfaces)
  end.

Definition refresh_interfaces : M unit :=
  xapi_do show_interface_all;;
  root ← get_element_root;
  let response := python root in
  match envelope response with
  | inl (KeyError _) =>
      raise (PanDeviceError "Error reading response while refreshing interfaces")
  | inl e => raise e
  | inr response =>
      if truthy response then
        hw_result ← lift (get response "hw" (PyDict ∅));
        match hw_result with
        | PyNone => ret ()
        | _ =>
            hw_result ← lift (get hw_result "entry" (PyList []));
            hw_items ← lift (iter hw_result);
            hw ← lift (hw_loop hw_items ∅);
            if_result ← lift (get response "ifnet" (PyDict ∅));
            match if_result with
            | PyNone => ret ()
            | _ =>
                if_result ← lift (get if_result "entry" (PyList []));
                if_items ← lift (iter if_result);
                interfaces ← ifnet_loop hw if_items ∅;
                f ← get_fw;
                put_fw (with_interfaces interfaces f)
            end
        end
      else raise (PanDeviceError "Could not refresh interfaces")
  end.

(** ** Notions used in the statements *)

(** The document [refresh_interfaces] reads: the root element the
    transport holds after the [show interface "all"] call, in Python
    form. *)
Definition received (w : World) : pyval :=
  python (element_root (xapi_call show_interface_all (xapi w)).2).

(** The key under which the second loop stores an entry:
    [entry['name']]. *)
Definition entry_key (entry : pyval) : exn + pykey :=
  n ← getitem entry "name";
  hash_key n.

(** Steps that keep a property of the interfaces index. *)
Definition preserves (Q : gmap pykey loc → Prop) {A} (m : M A) : Prop :=
  ∀ w, Q (interfaces (fw w)) → Q (interfaces (fw (m w).2)).

End Model.

(** ** More of [Firewall] *)

Section MoreModel.
Context `{Ext : External} `{Bs : !Base}.

(** [_interface_name]: a string stands for itself, an [Interface] for its
    name, anything else is refused. *)
Definition _interface_name (interface : pyobj) : M pykey :=
  match interface with
  | Other (PyStr s) => ret (Some s)
  | AnInterface l => i ← deref l; ret (name i)
  | Other _ =>
      raise (PanDeviceError "interface argument must be of type str or Interface")
  end.

(** How a world relates to a later one in which the transport is the
    same and no object was changed or lost. *)
Definition grows (w w' : World) : Prop :=
  xapi w' = xapi w ∧ trace w' = trace w
  ∧ ∀ l i, store w !! l = Some i → store w' !! l = Some i.

(** Steps that only add objects, or write attributes of the firewall. *)
Definition growing {A} (m : M A) : Prop := ∀ w, grows w (m w).2.

(** Steps that never write an attribute of the firewall. *)
Definition keeps_fw {A} (m : M A) : Prop := ∀ w, fw (m w).2 = fw w.

(** Steps that leave the firewall as it was whenever they raise. *)
Definition fails_clean {A} (m : M A) : Prop :=
  ∀ w e, (m w).1 = inl e → fw (m w).2 = fw w.

End MoreModel.

(** *** [refresh_system_info]

    The method writes four attributes, of which [version] and [platform]
    belong to the base class; it is modelled on these four and on the
    dictionary that [show_system_info] of the base class returned. *)
Module SystemInfo.

Record Attrs : Type := mkAttrs {
  version : pyval;
  platform : pyval;
  serial : pyval;
  multi_vsys : option bool;
}.

(** [system_info['system'][key]] *)
Definition system (system_info : pyval) (key : string) : exn + pyval :=
  s ← getitem system_info "system";
  getitem s key.

(** [v == "on"] *)
Definition is_on (v : pyval) : bool :=
  match v with
  | PyStr s => String.eqb s "on"
  | _ => false
  end.

(** The assignments are made one after the other: an exception leaves
    the earlier ones in place. *)
Definition refresh_system_info (system_info : pyval) (a : Attrs)
  : (exn + pyval * pyval * pyval) * Attrs :=
  match system system_info "sw-version" with
  | inl e => (inl e, a)
  | inr v =>
      let a := mkAttrs v (platform a) (serial a) (multi_vsys a) in
      match system system_info "model" with
      | inl e => (inl e, a)
      | inr p =>
          let a := mkAttrs (version a) p (serial a) (multi_vsys a) in
          match system system_info "serial" with
          | inl e => (inl e, a)
          | inr s =>
              let a := mkAttrs (version a) (platform a) s (multi_vsys a) in
              match system system_info "multi-vsys" with
              | inl e => (inl e, a)
              | inr m =>
                  let a := mkAttrs (version a) (platform a) (serial a)
                                   (Some (is_on m)) in
                  (inr (version a, platform a, serial a), a)
              end
          end
      end
  end.

End SystemInfo.

(** ** A concrete device

    A transport that accepts every call and whose root element is the
    document it holds, already in Python form; a change flag for
    [set_config_changed]; [xpath] as the vsys path; [apply] and [delete]
    of an interface as one transport call each. *)
Module Lab.

(** The escapes of [ET.tostring] for ASCII text: the three markup
    characters, and in attribute values the quote and the newline too. *)
Fixpoint escape (attrib : bool) (s : string) : string :=
  match s with
  | EmptyString => EmptyString
  | String c r =>
      (if Ascii.eqb c "&" then "&amp;"
       else if Ascii.eqb c "<" then "&lt;"
       else if Ascii.eqb c ">" then "&gt;"
       else if attrib && Ascii.eqb c "034" then "&quot;"
       else if attrib && Ascii.eqb c "010" then "&#10;"
       else String c EmptyString) +:+ escape attrib r
  end.

Fixpoint render_attrib (a : list (string * string)) : string :=
  match a with
  | [] => EmptyString
  | (k, v) :: r =>
      " " +:+ k +:+ "=" +:+ dquote +:+ escape true v +:+ dquote +:+ render_attrib r
  end.

Fixpoint render (e : etree) : string :=
  match e with
  | Element t a x cs =>
      match default EmptyString x, cs with
      | EmptyString, [] => "<" +:+ t +:+ render_attrib a +:+ " />"
      | txt, _ =>
          "<" +:+ t +:+ render_attrib a +:+ ">" +:+ escape false txt
          +:+ (fix go (l : list etree) : string :=
                 match l with
                 | [] => EmptyString
                 | c :: r => render c +:+ go r
                 end) cs
          +:+ "</" +:+ t +:+ ">"
      end
  end.

Definition ext : External := {|
  Transport := pyval;
  XmlElement := pyval;
  xapi_call := λ _ t, (None, t);
  element_root := λ t, t;
  python := λ e, e;
  ET_tostring := render;
  ConfigChanged := bool;
|}.

Definition base : @Base ext := {|
  set_config_changed :=
    λ w, (inr (), @with_fw ext (@with_config_changed ext true (fw w)) w);
  xpath := @xpath_vsys ext;
  xpath_device := λ _, "/config/devices/entry[@name='localhost.localdomain']";
  Interface_apply := λ l, @xapi_do ext (XSet "/interface" "<entry/>");
  Interface_delete := λ l, @xapi_do ext (XDelete "/interface");
|}.

Definition firewall (v : string) (index : gmap pykey loc) : @Firewall ext :=
  @mkFirewall ext 1%positive (Some "fw.example.com") (Some "key") 443 120 true
              None v None None None index false.

(** The same firewall, managed through a Panorama. *)
Definition managed : @Firewall ext :=
  @mkFirewall ext 1%positive (Some "fw.example.com") (Some "key") 443 120 true
              (Some "001606000123") "vsys1" None
              (Some (mkPanorama (Some "panorama.example.com") (Some "pkey") 443))
              None ∅ false.

Definition world (v : string) (objs : gmap loc Interface) (index : gmap pykey loc)
  (doc : pyval) : @World ext :=
  @mkWorld ext objs (firewall v index) doc [].

Definition dict (l : list (string * pyval)) : pyval := PyDict (list_to_map l).

Definition eth (n : string) (p : option loc) : Interface :=
  mkInterface (Some n) (PyStr "trust") (PyStr "default") [] PyNone p ∅ None.

(** A physical interface at address 2 and its subinterface at address 3;
    the parent holds no subinterface any more. *)
Definition objs : gmap loc Interface :=
  <[2%positive := eth "ethernet1/1" None]>
    (<[3%positive := eth "ethernet1/1.5" (Some 2%positive)]> ∅).

Definition index : gmap pykey loc :=
  <[Some "ethernet1/1" := 2%positive]>
    (<[Some "ethernet1/1.5" := 3%positive]> ∅).

(** A [show interface "all"] response with one interface. *)
Definition doc_one : pyval :=
  dict [("response",
         dict [("result",
                dict [("hw", dict [("entry",
                         PyList [dict [("name", PyStr "ethernet1/2");
                                       ("state", PyStr "up")]])]);
                      ("ifnet", dict [("entry",
                         PyList [dict [("name", PyStr "ethernet1/2");
                                       ("zone", PyStr "untrust");
                                       ("fwd", PyStr "vr:default");
                                       ("ip", PyStr "10.0.0.1/24")]])])])])].



(** A response without the [result] element. *)
Definition doc_no_result : pyval :=
  dict [("response", dict [("status", PyStr "error")])].

(** A response with an empty result. *)
Definition doc_empty_result : pyval :=
  dict [("response", dict [("result", PyNone)])].


(** What [show_system_info] returns on a firewall with several vsys, and
    the same without its last key. *)
Definition system_info : pyval :=
  dict [("system", dict [("sw-version", PyStr "7.0.1");
                         ("model", PyStr "PA-3020");
                         ("serial", PyStr "001606000123");
                         ("multi-vsys", PyStr "on")])].

Definition system_info_short : pyval :=
  dict [("system", dict [("sw-version", PyStr "7.0.1");
                         ("model", PyStr "PA-3020");
                         ("serial", PyStr "001606000123")])].

Definition attrs : SystemInfo.Attrs :=
  SystemInfo.mkAttrs PyNone PyNone PyNone None.

(** A response whose only interface has no [fwd]. *)
Definition doc_no_fwd : pyval :=
  dict [("response",
         dict [("result",
                dict [("ifnet", dict [("entry",
                         PyList [dict [("name", PyStr "ethernet1/2")]])])])])].

End Lab.

(** * Properties *)

Section Properties.
Context `{Ext : External} `{Bs : !Base}.

(** Unfolding of the sequencing operators. *)
Ltac run :=
  unfold mbind, mret, M_bind, M_ret, exn_bind, exn_ret, bind, ret, raise, lift,
    get_fw, put_fw, get_element_root, xapi_do, set_index,
    pop_index, assign_pan_device, deref in *;
  simpl in *.

Lemma bind_inr {A B} (m : M A) (k : A → M B) w b w' :
  (m ≫= k) w = (inr b, w') →
  ∃ a w1, m w = (inr a, w1) ∧ k a w1 = (inr b, w').
Proof.
  unfold mbind, M_bind, bind. destruct (m w) as [[e|a] w1]; [done|].
  intros H. by exists a, w1.
Qed.

Lemma lift_inr {A} (r : exn + A) w a w' :
  lift r w = (inr a, w') → r = inr a ∧ w' = w.
Proof. destruct r; unfold lift, raise, ret; naive_solver. Qed.

Lemma bind_unfold {A B} (m : M A) (k : A → M B) w :
  (m ≫= k) w = match m w with
               | (inr a, w') => k a w'
               | (inl e, w') => (inl e, w')
               end.
Proof. reflexivity. Qed.

Lemma preserves_apply Q {A} (m : M A) w :
  preserves Q m → Q (interfaces (fw w)) → Q (interfaces (fw (m w).2)).
Proof. intros H. apply H. Qed.

Lemma preserves_bind Q {A B} (m : M A) (k : A → M B) :
  preserves Q m → (∀ a, preserves Q (k a)) → preserves Q (m ≫= k).
Proof.
  intros Hm Hk w Hw. rewrite bind_unfold. specialize (Hm w Hw).
  destruct (m w) as [[e|a] w1]; simpl in *; [done|]. by apply Hk.
Qed.

Lemma preserves_ret Q {A} (a : A) : preserves Q (ret a).
Proof. by intros w. Qed.

Lemma preserves_get_fw Q : preserves Q get_fw.
Proof. by intros w. Qed.

Lemma preserves_deref Q l : preserves Q (deref l).
Proof. intros w Hw. unfold deref. by destruct (store w !! l). Qed.

Lemma preserves_assign Q l d : preserves Q (assign_pan_device l d).
Proof. by intros w. Qed.

(** ** Scope paths *)

(** C1: with a vsys identifier [v] (any string but "shared") in the vsys
    attribute, [xpath_vsys] is the device path of that vsys with [v]
    substituted; with "shared" it is exactly "/config/shared"; and the
    result depends on no attribute but vsys, which [with_vsys] alone
    changes. *)
Theorem xpath_vsys_scope (f : Firewall) (v : string) :
  v ≠ "shared" →
  xpath_vsys (with_vsys v f)
  = "/config/devices/entry[@name='localhost.localdomain']/vsys/entry[@name='"
    +:+ v +:+ "']"
  ∧ xpath_vsys (with_vsys "shared" f) = "/config/shared"
  ∧ (∀ g : Firewall, vsys g = vsys f → xpath_vsys g = xpath_vsys f)
  ∧ with_vsys (vsys f) (with_vsys v f) = f.
Proof.
  intros Hv. repeat split.
  - unfold xpath_vsys. simpl.
    destruct (String.eqb_spec v "shared") as [->|_]; [done|reflexivity].
  - intros g Hg. unfold xpath_vsys. by rewrite Hg.
  - by destruct f.
Qed.

(** C7: on every firewall [xpath_panorama] raises the device error about
    Panorama configuration; it returns no path. *)
Theorem xpath_panorama_raises (f : Firewall) :
  ∃ msg, xpath_panorama f = inl (PanDeviceError msg).
Proof. by eexists. Qed.

(** ** The transport *)

(** C8: [generate_xapi] constructs a transport itself exactly when both
    [panorama] and [serial] are set; that transport is given the
    hostname, port and API key of the panorama object and the firewall's
    serial; in every other case the result is that of the super class. *)
Theorem generate_xapi_via_panorama (f : Firewall) :
  ((∃ c k, generate_xapi f = Constructed c k)
   ↔ is_Some (panorama f) ∧ is_Some (serial f))
  ∧ (∀ c k, generate_xapi f = Constructed c k →
       ∃ p, panorama f = Some p
            ∧ kw_hostname k = pano_hostname p
            ∧ kw_port k = pano_port p
            ∧ kw_api_key k = pano_api_key p
            ∧ serial f = Some (kw_serial k))
  ∧ (generate_xapi f = SuperGenerateXapi
     ↔ panorama f = None ∨ serial f = None).
Proof.
  unfold generate_xapi.
  destruct (panorama f) as [p|], (serial f) as [s|], (classify_exceptions f);
    split_and!; try split;
    try (intros c k [= <- <-]; by exists p);
    try (by intros (? & ? & ?));
    try (by intros [[? ?] [? ?]]);
    try (by intros [?|?]);
    try (intros _; split; by eexists);
    try (intros _; by eauto);
    try done.
Qed.

(** C10: [op] makes one call on the transport, the operational command
    with the firewall's vsys as scope, or with "vsys1" when the vsys is
    "shared"; when the transport accepts the call, [op] returns the root
    element the transport then holds. *)
Theorem op_scope_and_root (cmd : option string) (cmd_xml : bool)
  (extra_qs : option string) (w : World) :
  let scope := if decide (vsys (fw w) = "shared") then "vsys1" else vsys (fw w) in
  let call := XOp cmd (Some scope) cmd_xml extra_qs in
  let r := op cmd cmd_xml extra_qs w in
  trace r.2 = (trace w ++ [call])%list
  ∧ xapi r.2 = (xapi_call call (xapi w)).2
  ∧ r.1 = match (xapi_call call (xapi w)).1 with
          | None => inr (element_root (xapi r.2))
          | Some e => inl e
          end
  ∧ store r.2 = store w ∧ fw r.2 = fw w.
Proof.
  unfold op, op_vsys. run.
  destruct (decide (vsys (fw w) = "shared")) as [Heq|Hne].
  - rewrite Heq. simpl. by destruct (xapi_call _ _) as [[e|] t].
  - destruct (String.eqb_spec (vsys (fw w)) "shared") as [?|_]; [done|].
    by destruct (xapi_call _ _) as [[e|] t].
Qed.


(** When [set_config_changed] raises, [add_address_object] raises the
    same and makes no call of its own. *)
Lemma add_address_object_config_raises (name address description : string)
  (w w1 : World) (e : exn) :
  set_config_changed w = (inl e, w1) →
  add_address_object name address description w = (inl e, w1).
Proof.
  intros H1. unfold add_address_object. by rewrite bind_unfold, H1.
Qed.

(** ** The vsys itself *)

(** C9: when the vsys attribute does not start with "vsys", [create] and
    [delete] return without a call on the transport and without a change
    anywhere. *)
Theorem create_delete_skip (w : World) :
  String.prefix "vsys" (vsys (fw w)) = false →
  create w = (inr (), w) ∧ delete w = (inr (), w).
Proof.
  intros H. unfold create, delete. run. by rewrite H.
Qed.

(** ** The interfaces index *)

(** C5 (as amended): for an argument that is not an [Interface],
    [add_interface] raises the [TypeError] of the source once
    [set_config_changed] has returned: the interfaces index, the objects,
    the transport and every attribute of the firewall are as
    [set_config_changed] left them, and nothing is attached. *)
Theorem add_interface_rejects (v : pyval) (apply : bool) (w w1 : World) :
  set_config_changed w = (inr (), w1) →
  add_interface (Other v) apply w
  = (inl (TypeError (Some "set_interface argument must be of type Interface")), w1).
Proof.
  intros H1. unfold add_interface. by rewrite bind_unfold, H1.
Qed.

(** The adding side: [add_interface] puts the interface under its name
    and, when it has a parent, the parent under the name of the parent. *)
Lemma add_interface_indexes (l p : loc) (i pi : Interface) (w w1 : World) :
  set_config_changed w = (inr (), w1) →
  store w1 !! l = Some i → parent i = Some p → store w1 !! p = Some pi →
  let r := add_interface (AnInterface l) false w in
  r.1 = inr ()
  ∧ interfaces (fw r.2) !! name i = Some l
  ∧ is_Some (interfaces (fw r.2) !! name pi).
Proof.
  intros H1 Hl Hp Hpi. unfold add_interface. rewrite bind_unfold, H1.
  run. rewrite Hl. simpl. rewrite Hp, Hpi.
  destruct (interfaces (fw w1) !! name pi) as [q|] eqn:Hq; simpl.
  - split_and!; [done|apply lookup_insert_eq|].
    rewrite lookup_insert_is_Some'. right. by eexists.
  - split_and!; [done|apply lookup_insert_eq|].
    rewrite lookup_insert_is_Some'. right.
    rewrite lookup_insert_is_Some'. by left.
Qed.

(** C6 (the code as it is): once [set_config_changed] has returned,
    [delete_interface] removes from the index the name of the interface it
    is given and no other name, on every path, so the name of an emptied
    parent stays.  With [apply] set this is so when the [delete] method of
    an interface leaves the index alone. *)
Theorem delete_interface_index (l : loc) (i : Interface)
  (apply delete_empty_parent : bool) (w w1 : World) :
  set_config_changed w = (inr (), w1) →
  store w1 !! l = Some i →
  (apply = true →
   ∀ l' w', interfaces (fw (Interface_delete l' w').2) = interfaces (fw w')) →
  let after := interfaces (fw (delete_interface l apply delete_empty_parent w).2) in
  after = base.delete (name i) (interfaces (fw w1))
  ∧ ∀ k, k ≠ name i → after !! k = interfaces (fw w1) !! k.
Proof.
  intros H1 Hl Hframe after.
  assert (Hafter : after = base.delete (name i) (interfaces (fw w1))).
  2: { split; [done|]. intros k Hk. rewrite Hafter. by apply lookup_delete_ne. }
  subst after. unfold delete_interface.
  rewrite bind_unfold, H1.
  rewrite bind_unfold. unfold deref at 1. rewrite Hl.
  rewrite bind_unfold. unfold pop_index at 1. cbv beta iota.
  apply (preserves_apply (λ m, m = base.delete (name i) (interfaces (fw w1)))); [|done].
  assert (Hdel : apply = true →
            ∀ l', preserves (λ m, m = base.delete (name i) (interfaces (fw w1)))
                    (Interface_delete l')).
  { intros Ha l' w' Hw'. by rewrite Hframe. }
  assert (Hpop : preserves (λ m, m = base.delete (name i) (interfaces (fw w1)))
                   (pop_index (name i))).
  { intros w' Hw'. simpl. rewrite Hw'. apply delete_delete_eq. }
  destruct apply;
  repeat first
    [ apply preserves_bind; [|intros ?]
    | apply preserves_ret | apply preserves_deref | apply preserves_get_fw
    | apply preserves_assign | by apply Hdel | apply Hpop
    | match goal with
      | |- preserves _ (match ?x with _ => _ end) => destruct x
      end ].
Qed.

(** *** Refreshing the index *)

Lemma new_interface_key hw e k i :
  new_interface hw e = inr (k, i) → entry_key e = inr k ∧ name i = k.
Proof.
  unfold new_interface, entry_key, mbind, exn_bind.
  destruct (entry_router e) as [?|rt]; [done|].
  destruct (getitem e "name") as [?|n]; [done|].
  destruct (getitem e "zone") as [?|z]; [done|].
  destruct (getitem e "ip") as [?|ip]; [done|].
  destruct (hash_key n) as [?|k']; [done|].
  destruct (get _ "state" PyNone) as [?|st]; [done|].
  intros [= <- <-]. done.
Qed.

(** The second loop leaves the firewall and the transport alone and adds
    to its accumulator exactly the keys of the entries it visits. *)
Lemma ifnet_loop_keys hw items :
  ∀ acc w m w',
    ifnet_loop hw items acc w = (inr m, w') →
    fw w' = fw w ∧ xapi w' = xapi w ∧ trace w' = trace w
    ∧ ∀ k, is_Some (m !! k)
           ↔ is_Some (acc !! k) ∨ ∃ e, e ∈ items ∧ entry_key e = inr k.
Proof.
  induction items as [|e rest IH]; intros acc w m w' H.
  - injection H as <- <-. split_and!; try done.
    intros k. split; [by left|]. intros [?|(e&He&_)]; [done|].
    by apply elem_of_nil in He.
  - simpl in H.
    apply bind_inr in H as (ki & w1 & Hnew & H).
    apply lift_inr in Hnew as [Hnew ->].
    apply bind_inr in H as (l & w2 & Halloc & H).
    injection Halloc as <- <-.
    destruct ki as [k0 i0]. apply new_interface_key in Hnew as [Hkey _].
    apply IH in H as (Hfw & Hx & Ht & Hm). simpl in *.
    split_and!; try done.
    intros k. rewrite Hm, lookup_insert_is_Some. split.
    + intros [[->|[_ ?]]|(e'&He'&Hk)].
      * right. exists e. split; [apply list_elem_of_here|done].
      * by left.
      * right. exists e'. split; [by apply list_elem_of_further|done].
    + intros [Hacc|(e'&He'&Hk)].
      * left. destruct (decide (k0 = k)); [by left|by right].
      * apply elem_of_cons in He' as [->|He'].
        -- left. left. congruence.
        -- right. by exists e'.
Qed.

Lemma xapi_do_inr c w w1 :
  xapi_do c w = (inr (), w1) →
  w1 = mkWorld (store w) (fw w) (xapi_call c (xapi w)).2 (trace w ++ [c])
  ∧ (xapi_call c (xapi w)).1 = None.
Proof.
  unfold xapi_do. destruct (xapi_call c (xapi w)) as [[e|] t]; simpl; [done|].
  by intros [= <-].
Qed.

(** C3 (as amended): when [refresh_interfaces] returns, either it
    stopped at an empty [hw] or [ifnet] element and the index is as it
    was, or the index holds exactly the names of the entries of the remote
    [ifnet] element: a local entry whose name the response does not have
    is dropped. *)
Theorem refresh_interfaces_index (w w' : World) :
  refresh_interfaces w = (inr (), w') →
  ∃ result,
    envelope (received w) = inr result
    ∧ ((interfaces (fw w') = interfaces (fw w)
        ∧ (get result "hw" (PyDict ∅) = inr PyNone
           ∨ get result "ifnet" (PyDict ∅) = inr PyNone))
       ∨ ∃ c items,
           get result "ifnet" (PyDict ∅) = inr c
           ∧ (get c "entry" (PyList []) ≫= iter) = inr items
           ∧ ∀ k, is_Some (interfaces (fw w') !! k)
                  ↔ ∃ e, e ∈ items ∧ entry_key e = inr k).
Proof.
  intros H. unfold refresh_interfaces in H.
  apply bind_inr in H as ([] & w1 & Hop & H).
  apply xapi_do_inr in Hop as [-> _].
  apply bind_inr in H as (root & w2 & Hroot & H).
  injection Hroot as <- <-. cbn [xapi] in H.
  fold (received w) in H.
  destruct (envelope (received w)) as [e|result]; [by destruct e|].
  exists result. split; [done|].
  destruct (truthy result); [|done].
  apply bind_inr in H as (hw_result & w3 & Hhw & H).
  apply lift_inr in Hhw as [Hhw ->].
  assert (Htail :
    hw_result = PyNone ∧ ret () (mkWorld (store w) (fw w) (xapi_call show_interface_all (xapi w)).2 (trace w ++ [show_interface_all])) = (inr (), w')
    ∨ ∃ hw c, get result "ifnet" (PyDict ∅) = inr c ∧
        match c with
        | PyNone => ret ()
        | _ => if_result ← lift (get c "entry" (PyList []));
               if_items ← lift (iter if_result);
               interfaces ← ifnet_loop hw if_items ∅;
               f ← get_fw;
               put_fw (with_interfaces interfaces f)
        end (mkWorld (store w) (fw w) (xapi_call show_interface_all (xapi w)).2 (trace w ++ [show_interface_all])) = (inr (), w')).
  { destruct hw_result; [by left|right..].
    all: apply bind_inr in H as (x1 & w4 & H1 & H); apply lift_inr in H1 as [H1 ->].
    all: apply bind_inr in H as (x2 & w4 & H2 & H); apply lift_inr in H2 as [H2 ->].
    all: apply bind_inr in H as (hw & w4 & H3 & H); apply lift_inr in H3 as [H3 ->].
    all: apply bind_inr in H as (c & w4 & H4 & H); apply lift_inr in H4 as [H4 ->].
    all: by exists hw, c. }
  clear H. destruct Htail as [[-> H]|(hw & c & Hc & H)].
  { left. injection H as <-. split; [done|by left]. }
  assert (Hloop : c = PyNone ∧ w' = mkWorld (store w) (fw w) (xapi_call show_interface_all (xapi w)).2 (trace w ++ [show_interface_all])
    ∨ ∃ es items m w5, get c "entry" (PyList []) = inr es ∧ iter es = inr items
        ∧ ifnet_loop hw items ∅ (mkWorld (store w) (fw w) (xapi_call show_interface_all (xapi w)).2 (trace w ++ [show_interface_all])) = (inr m, w5)
        ∧ w' = with_fw (with_interfaces m (fw w5)) w5).
  { destruct c; [left; by injection H as <-|right..].
    all: apply bind_inr in H as (es & w4 & H1 & H); apply lift_inr in H1 as [H1 ->].
    all: apply bind_inr in H as (items & w4 & H2 & H); apply lift_inr in H2 as [H2 ->].
    all: apply bind_inr in H as (m & w5 & H3 & H).
    all: apply bind_inr in H as (f & w6 & H4 & H); injection H4 as <- <-.
    all: injection H as <-.
    all: by exists es, items, m, w5. }
  clear H. destruct Hloop as [[-> ->]|(es & items & m & w5 & Hes & Hitems & Hloop & ->)].
  { left. split; [done|by right]. }
  right. exists c, items. split; [done|]. split.
  { unfold mbind, exn_bind. by rewrite Hes. }
  apply ifnet_loop_keys in Hloop as (_ & _ & _ & Hm).
  intros k. simpl. rewrite Hm, lookup_empty. split.
  - intros [[? [=]]|?]; done.
  - by right.
Qed.







End Properties.

(** * More properties *)

Section MoreProperties.
Context `{Ext : External} `{Bs : !Base}.

Ltac run :=
  unfold mbind, mret, M_bind, M_ret, exn_bind, exn_ret, bind, ret, raise, lift,
    get_fw, put_fw, get_element_root, xapi_do, set_index,
    pop_index, assign_pan_device, deref in *;
  simpl in *.

(** ** Steps that only add objects *)

Lemma grows_refl w : grows w w.
Proof. by split_and!. Qed.

Lemma grows_trans w1 w2 w3 : grows w1 w2 → grows w2 w3 → grows w1 w3.
Proof.
  intros (Hx & Ht & Hs) (Hx' & Ht' & Hs'). split_and!; [congruence..|].
  intros l i Hl. by apply Hs', Hs.
Qed.

Lemma growing_bind {A B} (m : M A) (k : A → M B) :
  growing m → (∀ a, growing (k a)) → growing (m ≫= k).
Proof.
  intros Hm Hk w. rewrite bind_unfold. specialize (Hm w).
  destruct (m w) as [[e|a] w1]; simpl in *; [done|].
  eapply grows_trans; [done|apply Hk].
Qed.

Lemma growing_ret {A} (a : A) : growing (ret a).
Proof. intros w. apply grows_refl. Qed.

Lemma growing_raise {A} (e : exn) : growing (@raise _ A e).
Proof. intros w. apply grows_refl. Qed.

Lemma growing_lift {A} (r : exn + A) : growing (lift r).
Proof. destruct r; [apply growing_raise | apply growing_ret]. Qed.

Lemma growing_get_fw : growing get_fw.
Proof. intros w. apply grows_refl. Qed.

Lemma growing_put_fw f : growing (put_fw f).
Proof. intros w. by split_and!. Qed.

Lemma growing_get_element_root : growing get_element_root.
Proof. intros w. apply grows_refl. Qed.

(** The address of a new object is that of no object and not that of the
    firewall. *)
Lemma alloc_fresh (w : World) :
  store w !! (fresh ({[id (fw w)]} ∪ dom (store w))) = None
  ∧ fresh ({[id (fw w)]} ∪ dom (store w)) ≠ id (fw w).
Proof.
  pose proof (is_fresh ({[id (fw w)]} ∪ dom (store w))) as Hf.
  split.
  - apply not_elem_of_dom. set_solver.
  - set_solver.
Qed.

Lemma growing_alloc i : growing (alloc i).
Proof.
  intros w. unfold alloc. simpl. split_and!; try done.
  intros l j Hl. cbn [store with_store]. rewrite lookup_insert_ne; [done|].
  intros <-. destruct (alloc_fresh w) as [Hn _]. congruence.
Qed.

Lemma growing_ifnet_loop hw items : ∀ acc, growing (ifnet_loop hw items acc).
Proof.
  induction items as [|e rest IH]; intros acc; simpl.
  - apply growing_ret.
  - apply growing_bind; [apply growing_lift|]. intros ki.
    apply growing_bind; [apply growing_alloc|]. intros l. apply IH.
Qed.

(** ** Steps that never write the firewall *)

Lemma keeps_fw_bind {A B} (m : M A) (k : A → M B) :
  keeps_fw m → (∀ a, keeps_fw (k a)) → keeps_fw (m ≫= k).
Proof.
  intros Hm Hk w. rewrite bind_unfold. specialize (Hm w).
  destruct (m w) as [[e|a] w1]; simpl in *; [done|]. by rewrite Hk.
Qed.

Lemma keeps_fw_lift {A} (r : exn + A) : keeps_fw (lift r).
Proof. by destruct r. Qed.

Lemma keeps_fw_alloc i : keeps_fw (alloc i).
Proof. by intros w. Qed.

Lemma keeps_fw_ifnet_loop hw items : ∀ acc, keeps_fw (ifnet_loop hw items acc).
Proof.
  induction items as [|e rest IH]; intros acc; simpl; [done|].
  apply keeps_fw_bind; [apply keeps_fw_lift|]. intros ki.
  apply keeps_fw_bind; [apply keeps_fw_alloc|]. intros l. apply IH.
Qed.

Lemma fails_clean_bind {A B} (m : M A) (k : A → M B) :
  keeps_fw m → (∀ a, fails_clean (k a)) → fails_clean (m ≫= k).
Proof.
  intros Hm Hk w e. rewrite bind_unfold. specialize (Hm w).
  destruct (m w) as [[e'|a] w1] eqn:Hmw; simpl in *; [done|].
  intros He. rewrite (Hk a w1 e He). done.
Qed.

Lemma fails_clean_keeps {A} (m : M A) : keeps_fw m → fails_clean m.
Proof. intros H w e _. apply H. Qed.

Lemma fails_clean_put_fw f : fails_clean (put_fw f).
Proof. by intros w e. Qed.

(** ** [refresh_interfaces] *)

(** The world [refresh_interfaces] works in once the call to the
    transport is made. *)
Lemma refresh_interfaces_grows (w : World) :
  grows (mkWorld (store w) (fw w) (xapi_call show_interface_all (xapi w)).2
                 (trace w ++ [show_interface_all]))
        (refresh_interfaces w).2.
Proof.
  unfold refresh_interfaces. rewrite bind_unfold. unfold xapi_do at 1.
  destruct (xapi_call show_interface_all (xapi w)) as [[e|] t]; simpl;
    [apply grows_refl|].
  match goal with |- grows ?w0 (?m ?w0).2 => enough (growing m) as H by apply H end.
  repeat first
    [ apply growing_bind; [|intros ?]
    | apply growing_ret | apply growing_raise | apply growing_lift
    | apply growing_get_fw | apply growing_put_fw
    | apply growing_get_element_root | apply growing_ifnet_loop
    | match goal with
      | |- growing (match ?x with _ => _ end) => destruct x
      | |- growing (if ?x then _ else _) => destruct x
      end ].
Qed.

(** X1: whatever the response and whether it raises or returns,
    [refresh_interfaces] makes one call on the transport and no more: the
    operational command [show interface "all"], with no vsys and as XML. *)
Theorem refresh_interfaces_one_call (w : World) :
  trace (refresh_interfaces w).2
  = (trace w ++ [XOp (Some ("show interface " +:+ dquote +:+ "all" +:+ dquote))
                     None true None])%list
  ∧ xapi (refresh_interfaces w).2 = (xapi_call show_interface_all (xapi w)).2.
Proof.
  destruct (refresh_interfaces_grows w) as (Hx & Ht & _). by split.
Qed.

(** X2: on every path, [refresh_interfaces] leaves each object that was in
    the store as it was: the interfaces it drops from the index are not
    changed, and the new ones are new objects. *)
Theorem refresh_interfaces_keeps_objects (w : World) (l : loc) (i : Interface) :
  store w !! l = Some i →
  store (refresh_interfaces w).2 !! l = Some i.
Proof.
  intros Hl. destruct (refresh_interfaces_grows w) as (_ & _ & Hs).
  by apply Hs.
Qed.

(** X3: when [refresh_interfaces] raises, whatever the exception and
    wherever it comes from, no attribute of the firewall has changed: the
    interfaces index is assigned last, or not at all. *)
Theorem refresh_interfaces_raise_keeps_firewall (w : World) (e : exn) :
  (refresh_interfaces w).1 = inl e →
  fw (refresh_interfaces w).2 = fw w.
Proof.
  enough (fails_clean refresh_interfaces) as H by apply (H w e).
  unfold refresh_interfaces.
  repeat first
    [ apply fails_clean_put_fw
    | apply fails_clean_bind;
      [ first [ apply keeps_fw_lift | apply keeps_fw_ifnet_loop | by intros ? ] | intros ? ]
    | apply fails_clean_keeps; by intros ?
    | match goal with
      | |- fails_clean (match ?x with _ => _ end) => destruct x
      | |- fails_clean (if ?x then _ else _) => destruct x
      end ].
Qed.

Lemma new_interface_name hw e k i :
  new_interface hw e = inr (k, i) → name i = k.
Proof. intros H. by apply new_interface_key in H as [_ ?]. Qed.

(** What the second loop keeps true of its accumulator: every address in
    it is that of a new object, which has under its key whatever property
    [new_interface] gives to the objects it makes. *)
Lemma ifnet_loop_new_objects (P : pykey → Interface → Prop)
  (S0 : gmap loc Interface) hw items :
  (∀ e k i, new_interface hw e = inr (k, i) → P k i) →
  ∀ acc w m w',
    ifnet_loop hw items acc w = (inr m, w') →
    (∀ l, is_Some (S0 !! l) → is_Some (store w !! l)) →
    (∀ k l, acc !! k = Some l →
       S0 !! l = None ∧ l ≠ id (fw w)
       ∧ ∃ i, store w !! l = Some i ∧ P k i) →
    ∀ k l, m !! k = Some l →
      S0 !! l = None ∧ l ≠ id (fw w')
      ∧ ∃ i, store w' !! l = Some i ∧ P k i.
Proof.
  intros HP.
  induction items as [|e rest IH]; intros acc w m w' H Hsub Hinv.
  - by injection H as <- <-.
  - simpl in H.
    apply bind_inr in H as ([k0 i0] & w1 & Hnew & H).
    apply lift_inr in Hnew as [Hnew ->].
    apply bind_inr in H as (l0 & w2 & Halloc & H).
    injection Halloc as <- <-.
    destruct (alloc_fresh w) as [Hnone Hid].
    apply HP in Hnew.
    eapply IH; [exact H| |].
    + intros l Hl. cbn [store with_store].
      rewrite lookup_insert_is_Some. destruct (decide (fresh ({[id (fw w)]} ∪ dom (store w)) = l));
        [by left | right; split; [done | by apply Hsub]].
    + intros k l. cbn [fst snd store with_store fw]. rewrite lookup_insert.
      case_decide as Hk.
      * intros [= <-]. subst k. split_and!.
        -- destruct (S0 !! _) as [j|] eqn:Hj; [|done].
           destruct (Hsub _ (mk_is_Some _ _ Hj)) as [j' Hj']. congruence.
        -- done.
        -- exists i0. by rewrite lookup_insert_eq.
      * intros Hl. destruct (Hinv k l Hl) as (H0 & Hne & i & Hi & Hu).
        split_and!; [done..|]. exists i. split; [|done].
        rewrite lookup_insert_ne; [done|]. intros Heq. congruence.
Qed.

(** The two ways in which [refresh_interfaces] returns: early, at an
    [hw] or [ifnet] element that is [None], in the world the call to the
    transport left; or past both loops, with what the second loop gathered
    as the index. *)
Lemma refresh_interfaces_returns (w w' : World) :
  refresh_interfaces w = (inr (), w') →
  let w0 := mkWorld (store w) (fw w) (xapi_call show_interface_all (xapi w)).2
                    (trace w ++ [show_interface_all]) in
  ∃ result,
    envelope (received w) = inr result
    ∧ ((w' = w0
        ∧ (get result "hw" (PyDict ∅) = inr PyNone
           ∨ get result "ifnet" (PyDict ∅) = inr PyNone))
       ∨ ∃ hw_c hw_items hw items m w5,
           get result "hw" (PyDict ∅) = inr hw_c
           ∧ (get hw_c "entry" (PyList []) ≫= iter) = inr hw_items
           ∧ hw_loop hw_items ∅ = inr hw
           ∧ ifnet_loop hw items ∅ w0 = (inr m, w5)
           ∧ w' = with_fw (with_interfaces m (fw w5)) w5).
Proof.
  intros H w0. unfold refresh_interfaces in H.
  apply bind_inr in H as ([] & w1 & Hop & H).
  apply xapi_do_inr in Hop as [-> _]. fold w0 in H.
  apply bind_inr in H as (root & w2 & Hroot & H).
  injection Hroot as <- <-. cbn [xapi] in H. subst w0. fold (received w) in H.
  destruct (envelope (received w)) as [e|result]; [by destruct e|].
  exists result. split; [done|].
  destruct (truthy result); [|done].
  apply bind_inr in H as (hw_result & w3 & Hhw & H).
  apply lift_inr in Hhw as [Hhw ->].
  destruct hw_result; [left; injection H as <-; split; [done|by left]|..].
  all: apply bind_inr in H as (x1 & w4 & H1 & H); apply lift_inr in H1 as [H1 ->].
  all: apply bind_inr in H as (x2 & w4 & H2 & H); apply lift_inr in H2 as [H2 ->].
  all: apply bind_inr in H as (hw & w4 & H3 & H); apply lift_inr in H3 as [H3 ->].
  all: apply bind_inr in H as (c & w4 & H4 & H); apply lift_inr in H4 as [H4 ->].
  all: destruct c; [left; injection H as <-; split; [done|by right]|..].
  all: apply bind_inr in H as (es & w4 & H5 & H); apply lift_inr in H5 as [H5 ->].
  all: apply bind_inr in H as (items & w4 & H6 & H); apply lift_inr in H6 as [H6 ->].
  all: apply bind_inr in H as (m & w5 & H7 & H).
  all: apply bind_inr in H as (f & w6 & H8 & H); injection H8 as <- <-.
  all: injection H as <-.
  all: right; eexists _, x2, hw, items, m, w5.
  all: split_and!; try done.
  all: unfold mbind, exn_bind; by rewrite H1.
Qed.

(** X4: when [refresh_interfaces] returns, either it stopped at an [hw]
    or [ifnet] element that is [None] and the index is the one from
    before, or every address in the index is that of an object made by
    this refresh: it was no object before, and it is stored under the
    name that is its key. *)
Theorem refresh_interfaces_index_objects (w w' : World) :
  refresh_interfaces w = (inr (), w') →
  ∃ result,
    envelope (received w) = inr result
    ∧ ((interfaces (fw w') = interfaces (fw w)
        ∧ (get result "hw" (PyDict ∅) = inr PyNone
           ∨ get result "ifnet" (PyDict ∅) = inr PyNone))
       ∨ ∀ k l, interfaces (fw w') !! k = Some l →
           store w !! l = None
           ∧ ∃ i, store w' !! l = Some i ∧ name i = k).
Proof.
  intros H.
  apply refresh_interfaces_returns in H
    as (result & Henv & [[-> Hnone]
                        |(hw_c & hw_items & hw & items & m & w5
                          & _ & _ & _ & Hloop & ->)]).
  - exists result. split; [done|]. by left.
  - exists result. split; [done|]. right. intros k l Hl. simpl in Hl.
    destruct (ifnet_loop_new_objects (λ k i, name i = k) (store w) hw items
                (new_interface_name hw) ∅ _ m w5 Hloop)
      with (k := k) (l := l)
      as (H0 & _ & i & Hi & Hn); [done| |done|].
    + intros k' l'. by rewrite lookup_empty.
    + split; [done|]. by exists i.
Qed.

(** The first loop never forgets a name. *)
Lemma hw_loop_keeps items :
  ∀ acc hw k h0,
    hw_loop items acc = inr hw → acc !! k = Some h0 → is_Some (hw !! k).
Proof.
  induction items as [|e rest IH]; intros acc hw k h0 H Hacc.
  - injection H as <-. by eexists.
  - simpl in H. unfold mbind, exn_bind in H.
    destruct (getitem e "name") as [?|n]; [done|].
    destruct (hash_key n) as [?|k0]; [done|].
    destruct (decide (k0 = k)) as [->|Hne].
    + eapply IH; [done|]. apply lookup_insert_eq.
    + eapply IH; [done|]. by rewrite lookup_insert_ne.
Qed.

Lemma hw_loop_entries items :
  ∀ acc hw,
    hw_loop items acc = inr hw →
    (∀ k h, hw !! k = Some h →
            acc !! k = Some h ∨ (h ∈ items ∧ entry_key h = inr k))
    ∧ (∀ k h, h ∈ items → entry_key h = inr k → is_Some (hw !! k)).
Proof.
  induction items as [|e rest IH]; intros acc hw H.
  - injection H as <-. split; [by left|]. intros k h Hh. by apply elem_of_nil in Hh.
  - simpl in H. unfold mbind, exn_bind in H.
    destruct (getitem e "name") as [?|n] eqn:Hn; [done|].
    destruct (hash_key n) as [?|k0] eqn:Hk0; [done|].
    assert (Hkey : entry_key e = inr k0).
    { unfold entry_key, mbind, exn_bind. by rewrite Hn. }
    destruct (IH _ _ H) as [H1 H2]. split.
    + intros k h Hh. destruct (H1 k h Hh) as [Hacc|[Hin Hk]].
      * rewrite lookup_insert in Hacc. case_decide; simplify_eq.
        -- right. split; [apply list_elem_of_here|done].
        -- by left.
      * right. split; [by apply list_elem_of_further|done].
    + intros k h Hin Hk. apply elem_of_cons in Hin as [->|Hin].
      * assert (k = k0) as -> by congruence.
        eapply hw_loop_keeps; [exact H|]. apply lookup_insert_eq.
      * by eapply H2.
Qed.


Lemma new_interface_state hw e k i :
  new_interface hw e = inr (k, i) →
  get (default (PyDict ∅) (hw !! k)) "state" PyNone = inr (state i).
Proof.
  unfold new_interface, mbind, exn_bind.
  destruct (entry_router e) as [?|rt]; [done|].
  destruct (getitem e "name") as [?|n]; [done|].
  destruct (getitem e "zone") as [?|z]; [done|].
  destruct (getitem e "ip") as [?|ip]; [done|].
  destruct (hash_key n) as [?|k']; [done|].
  destruct (get _ "state" PyNone) as [?|st] eqn:Hst; [done|].
  intros [= <- <-]. done.
Qed.

(** X15: when [refresh_interfaces] returns, either it stopped at an [hw]
    or [ifnet] element that is [None] and the index is the one from
    before, or the state of each interface in the index is read from the
    hardware entries: it is [None] when no [hw] entry has the name of the
    interface, which is no error, and otherwise the [state] of an [hw]
    entry of that name. *)
Theorem refresh_interfaces_state (w w' : World) :
  refresh_interfaces w = (inr (), w') →
  ∃ result,
    envelope (received w) = inr result
    ∧ ((interfaces (fw w') = interfaces (fw w)
        ∧ (get result "hw" (PyDict ∅) = inr PyNone
           ∨ get result "ifnet" (PyDict ∅) = inr PyNone))
       ∨ ∃ hw_c hw_items,
           get result "hw" (PyDict ∅) = inr hw_c
           ∧ (get hw_c "entry" (PyList []) ≫= iter) = inr hw_items
           ∧ ∀ k l i,
               interfaces (fw w') !! k = Some l → store w' !! l = Some i →
               ((∀ h, h ∈ hw_items → entry_key h = inr k → False) →
                state i = PyNone)
               ∧ ((∃ h, h ∈ hw_items ∧ entry_key h = inr k) →
                  ∃ h, h ∈ hw_items ∧ entry_key h = inr k
                       ∧ get h "state" PyNone = inr (state i))).
Proof.
  intros H.
  apply refresh_interfaces_returns in H
    as (result & Henv & [[-> Hnone]
                        |(hw_c & hw_items & hw & items & m & w5
                          & Hhw & Hitems & Hloop1 & Hloop & ->)]).
  - exists result. split; [done|]. by left.
  - exists result. split; [done|]. right.
    exists hw_c, hw_items. split_and!; [done..|].
    intros k l i Hl Hi. simpl in Hl, Hi.
    destruct (ifnet_loop_new_objects
                (λ k i, get (default (PyDict ∅) (hw !! k)) "state" PyNone
                        = inr (state i))
                (store w) hw items (new_interface_state hw) ∅ _ m w5 Hloop)
      with (k := k) (l := l) as (_ & _ & i' & Hi' & Hst); [done| |done|].
    { intros k' l'. by rewrite lookup_empty. }
    assert (i' = i) as -> by congruence.
    destruct (hw_loop_entries hw_items ∅ hw Hloop1) as [Hfrom Hto].
    split.
    + intros Hnone. destruct (hw !! k) as [h|] eqn:Hk.
      * destruct (Hfrom k h Hk) as [Hemp|[Hin Hkey]].
        -- by rewrite lookup_empty in Hemp.
        -- by destruct (Hnone h Hin Hkey).
      * simpl in Hst. rewrite lookup_empty in Hst. by injection Hst as <-.
    + intros (h0 & Hin0 & Hkey0).
      destruct (Hto k h0 Hin0 Hkey0) as [h Hk].
      destruct (Hfrom k h Hk) as [Hemp|[Hin Hkey]].
      * by rewrite lookup_empty in Hemp.
      * exists h. split_and!; [done..|]. by rewrite Hk in Hst.
Qed.

(** X16: a [KeyError] from inside the loops is not turned into a device
    error.  When the transport has answered, the result has no [hw] and
    the first [ifnet] entry is a dictionary without [fwd], the refresh
    raises [KeyError] for that key, and the firewall with its index is as
    before. *)
Theorem refresh_interfaces_entry_without_fwd (w : World)
  (d c e : gmap string pyval) (rest : list pyval) :
  (xapi_call show_interface_all (xapi w)).1 = None →
  envelope (received w) = inr (PyDict d) →
  d !! "hw" = None →
  d !! "ifnet" = Some (PyDict c) →
  c !! "entry" = Some (PyList (PyDict e :: rest)) →
  e !! "fwd" = None →
  (refresh_interfaces w).1 = inl (KeyError "fwd")
  ∧ fw (refresh_interfaces w).2 = fw w.
Proof.
  intros Hok Henv Hhw Hif Hentry Hfwd.
  assert (Hd : d ≠ ∅) by (intros ->; by rewrite lookup_empty in Hif).
  remember (refresh_interfaces w) as r eqn:Hr.
  unfold refresh_interfaces in Hr.
  rewrite bind_unfold in Hr; unfold xapi_do at 1 in Hr; rewrite Hok in Hr.
  cbv beta iota zeta in Hr.
  rewrite bind_unfold in Hr; unfold get_element_root at 1 in Hr.
  cbv beta iota in Hr. cbn [xapi] in Hr. fold (received w) in Hr.
  rewrite Henv in Hr. cbn [truthy] in Hr.
  rewrite bool_decide_eq_false_2 in Hr by done. cbn [negb get] in Hr.
  rewrite Hhw, Hif in Hr. cbn [default] in Hr.
  run. rewrite lookup_empty, Hentry in Hr. simpl in Hr.
  unfold new_interface, entry_router, mbind, exn_bind, getitem in Hr.
  rewrite Hfwd in Hr. simpl in Hr. by subst r.
Qed.

(** ** The router of an entry *)




(** ** Adding and deleting interfaces without applying *)

(** X6: with [apply] unset and once [set_config_changed] has returned,
    [add_interface] on an interface returns, makes no call on the
    transport, puts the interface in the index under its name, binds it
    to this firewall, and leaves every other name of the index on the
    object it was on: a parent already in the index is not put again. *)
Theorem add_interface_index (l : loc) (i : Interface) (w w1 : World) :
  set_config_changed w = (inr (), w1) →
  store w1 !! l = Some i →
  (∀ p, parent i = Some p → is_Some (store w1 !! p)) →
  let r := add_interface (AnInterface l) false w in
  r.1 = inr ()
  ∧ trace r.2 = trace w1
  ∧ interfaces (fw r.2) !! name i = Some l
  ∧ (∀ k q, k ≠ name i → interfaces (fw w1) !! k = Some q →
            interfaces (fw r.2) !! k = Some q)
  ∧ store r.2 !! l = Some (set_pan_device (Some (id (fw w1))) i).
Proof.
  intros H1 Hl Hp. unfold add_interface. rewrite bind_unfold, H1.
  run. rewrite Hl. simpl.
  destruct (parent i) as [p|].
  - destruct (Hp p eq_refl) as [pi Hpi]. rewrite Hpi.
    destruct (interfaces (fw w1) !! name pi) as [q0|] eqn:Hq; simpl.
    + split_and!; [done|done|apply lookup_insert_eq| |].
      * intros k q Hk Hkq. by rewrite lookup_insert_ne.
      * rewrite lookup_alter_eq, Hl. done.
    + split_and!; [done|done|apply lookup_insert_eq| |].
      * intros k q Hk Hkq. rewrite lookup_insert_ne by done.
        rewrite lookup_insert_ne; [done|]. intros <-. congruence.
      * rewrite lookup_alter_eq, Hl. done.
  - simpl. split_and!; [done|done|apply lookup_insert_eq| |].
    + intros k q Hk Hkq. by rewrite lookup_insert_ne.
    + rewrite lookup_alter_eq, Hl. done.
Qed.

(** X7: with [apply] unset and once [set_config_changed] has returned,
    [delete_interface] returns and makes no call on the transport; an
    interface that is not in the index is no error and the index stays as
    it is; and the interface ends bound to no device, also when it was
    bound to another one. *)
Theorem delete_interface_unapplied (l : loc) (i : Interface)
  (delete_empty_parent : bool) (w w1 : World) :
  set_config_changed w = (inr (), w1) →
  store w1 !! l = Some i →
  (∀ p, parent i = Some p → is_Some (store w1 !! p)) →
  let r := delete_interface l false delete_empty_parent w in
  r.1 = inr ()
  ∧ trace r.2 = trace w1
  ∧ store r.2 !! l = Some (set_pan_device None i)
  ∧ (interfaces (fw w1) !! name i = None →
     interfaces (fw r.2) = interfaces (fw w1)).
Proof.
  intros H1 Hl Hp. unfold delete_interface. rewrite bind_unfold, H1.
  run. rewrite Hl. simpl.
  assert (Hst : ∀ d, (alter (set_pan_device None) l
                        (alter (set_pan_device d) l (store w1))) !! l
                     = Some (set_pan_device None i)).
  { intros d. by rewrite !lookup_alter_eq, Hl. }
  assert (Hst0 : alter (set_pan_device None) l (store w1) !! l
                 = Some (set_pan_device None i)).
  { by rewrite lookup_alter_eq, Hl. }
  destruct (pan_device i) as [d|]; cbn;
    (destruct delete_empty_parent; cbn;
     [destruct (parent i) as [p|] eqn:Hpar; cbn|]);
    try (destruct (Hp p eq_refl) as [pi Hpi];
         rewrite ?lookup_alter; try case_decide; simplify_eq;
         rewrite ?Hl, ?Hpi; cbn; case_bool_decide; cbn);
    (split_and!;
     [ done | done | by rewrite ?lookup_alter_eq, ?Hl
     | intros Hn; by rewrite !delete_id by (by rewrite ?delete_id) ]).
Qed.

(** X8: when [set_config_changed] always returns and touches neither the
    objects nor the index, adding an interface without a parent and then
    deleting it, both without applying, returns with the name of the
    interface out of the index, so with the index from before when the
    name was not in it, and with the interface bound to no device. *)
Theorem add_then_delete_interface (l : loc) (i : Interface)
  (delete_empty_parent : bool) (w : World) :
  (∀ w0, ∃ w1, set_config_changed w0 = (inr (), w1)
               ∧ store w1 = store w0
               ∧ interfaces (fw w1) = interfaces (fw w0)) →
  store w !! l = Some i →
  parent i = None →
  let r := (add_interface (AnInterface l) false
            ≫= λ _, delete_interface l false delete_empty_parent) w in
  r.1 = inr ()
  ∧ interfaces (fw r.2) = base.delete (name i) (interfaces (fw w))
  ∧ (interfaces (fw w) !! name i = None → interfaces (fw r.2) = interfaces (fw w))
  ∧ store r.2 !! l = Some (set_pan_device None i).
Proof.
  intros Hcfg Hl Hpar r.
  assert (Hr : r.1 = inr ()
               ∧ interfaces (fw r.2) = base.delete (name i) (interfaces (fw w))
               ∧ store r.2 !! l = Some (set_pan_device None i)).
  2: { destruct Hr as (? & Hi & ?). split_and!; try done.
       intros Hn. rewrite Hi. by apply delete_id. }
  destruct (Hcfg w) as (w1 & H1 & Hs1 & Hi1).
  remember r as r' eqn:Hr. subst r.
  unfold add_interface, delete_interface in Hr.
  rewrite bind_unfold in Hr. rewrite bind_unfold, H1 in Hr.
  rewrite bind_unfold in Hr. unfold deref at 1 in Hr. rewrite Hs1, Hl in Hr.
  rewrite Hpar in Hr. run.
  match type of Hr with
  | context [set_config_changed ?w0] =>
      destruct (Hcfg w0) as (w2 & H2 & Hs2 & Hi2); rewrite H2 in Hr
  end.
  cbn in Hs2, Hi2. rewrite Hs2, lookup_alter_eq, Hs1, Hl in Hr. cbn in Hr.
  rewrite Hpar in Hr.
  destruct delete_empty_parent; cbn in Hr; subst r'; cbn.
  all: rewrite Hi2, Hi1, Hs2, Hs1.
  all: split_and!; [done| |by rewrite !lookup_alter_eq, Hl].
  all: by rewrite delete_insert_eq.
Qed.

(** ** Paths *)

Lemma app_cons c a b : String c a +:+ b = String c (a +:+ b).
Proof. reflexivity. Qed.

Lemma length_app a b :
  String.length (a +:+ b) = String.length a + String.length b.
Proof.
  induction a as [|c a IH]; [done|]. rewrite app_cons. simpl. by rewrite IH.
Qed.

Lemma app_inv_tail a b t : a +:+ t = b +:+ t → a = b.
Proof.
  revert b. induction a as [|c a IH]; intros [|d b] H.
  - done.
  - apply (f_equal String.length) in H. rewrite !length_app in H. simpl in H. lia.
  - apply (f_equal String.length) in H. rewrite !length_app in H. simpl in H. lia.
  - rewrite !app_cons in H. injection H as -> H. f_equal. by apply IH.
Qed.

(** X9: two firewalls resolve to the same vsys path only when their vsys
    attributes are the same: no two scopes share a path. *)
Theorem xpath_vsys_inj (f g : Firewall) :
  xpath_vsys f = xpath_vsys g → vsys f = vsys g.
Proof.
  unfold xpath_vsys.
  destruct (String.eqb_spec (vsys f) "shared") as [Hf|Hf],
           (String.eqb_spec (vsys g) "shared") as [Hg|Hg].
  - congruence.
  - intros H. cbv [String.append] in H. discriminate H.
  - intros H. cbv [String.append] in H. discriminate H.
  - intros H. apply String.app_inj in H. by apply app_inv_tail in H.
Qed.

(** X10: on a firewall whose vsys starts with "vsys" and whose device
    path is that of the local device, [create] sets under the vsys
    container of the device, and [delete] deletes exactly the path that
    [xpath_vsys] resolves to, which is the entry of the vsys in that
    container; each makes this one call, and neither writes the firewall
    or an object. *)
Theorem vsys_entry_paths (w : World) :
  String.prefix "vsys" (vsys (fw w)) = true →
  xpath_device (fw w) = "/config/devices/entry[@name='localhost.localdomain']" →
  trace (create w).2
  = (trace w ++ [XSet (xpath_device (fw w) +:+ "/vsys")
                   (ET_tostring
                      (Element "entry" [("name", vsys (fw w))] None
                         match vsys_name (fw w) with
                         | Some n => [Element "display-name" [] (Some n) []]
                         | None => []
                         end))])%list
  ∧ trace (delete w).2 = (trace w ++ [XDelete (xpath_vsys (fw w))])%list
  ∧ xpath_vsys (fw w)
    = (xpath_device (fw w) +:+ "/vsys") +:+ "/entry[@name='" +:+ vsys (fw w) +:+ "']"
  ∧ fw (create w).2 = fw w ∧ store (create w).2 = store w
  ∧ fw (delete w).2 = fw w ∧ store (delete w).2 = store w.
Proof.
  intros Hpre Hdev.
  assert (Hns : String.eqb (vsys (fw w)) "shared" = false).
  { apply String.eqb_neq. intros Heq. by rewrite Heq in Hpre. }
  unfold create, delete, xpath_vsys. run. rewrite Hpre, Hns, Hdev. simpl.
  split_and!; try done. by destruct (vsys_name (fw w)).
Qed.

(** ** Naming an interface *)

(** X11: [_interface_name] returns exactly for a string, which it gives
    back, and for an interface, of which it gives the name; for any other
    argument it raises a device error; in no case does it call the
    transport or change anything. *)
Theorem interface_name_cases (o : pyobj) (w : World) :
  (_interface_name o w).2 = w
  ∧ (∀ s, o = Other (PyStr s) → (_interface_name o w).1 = inr (Some s))
  ∧ (∀ l i, o = AnInterface l → store w !! l = Some i →
            (_interface_name o w).1 = inr (name i))
  ∧ (∀ v, o = Other v → (∀ s, v ≠ PyStr s) →
          ∃ msg, (_interface_name o w).1 = inl (PanDeviceError msg)).
Proof.
  split_and!.
  - destruct o as [l|[]]; try done. unfold _interface_name. run.
    by destruct (store w !! l).
  - by intros s ->.
  - intros l i -> Hl. unfold _interface_name. run. by rewrite Hl.
  - intros v -> Hv. destruct v; try by eexists. by destruct (Hv s).
Qed.

(** ** Address objects *)

(** X12: when [set_config_changed] always returns and touches neither the
    trace nor what the xpath is read from, adding an address object and
    then deleting it by the same name makes a set and then a delete at one
    and the same path; and when the transport refuses the set, the
    exception is raised and no delete is made. *)
Theorem add_then_delete_address_object (name address description : string)
  (w : World) :
  (∀ w0, ∃ w1, set_config_changed w0 = (inr (), w1)
               ∧ trace w1 = trace w0 ∧ xapi w1 = xapi w0
               ∧ xpath (fw w1) = xpath (fw w0)) →
  let path := xpath (fw w) +:+ "/address/entry[@name='" +:+ name +:+ "']" in
  let element := "<ip-netmask>" +:+ address +:+ "</ip-netmask><description>"
                 +:+ description +:+ "</description>" in
  let r := (add_address_object name address description
            ≫= λ _, delete_address_object name) w in
  match (xapi_call (XSet path element) (xapi w)).1 with
  | None => trace r.2 = (trace w ++ [XSet path element; XDelete path])%list
  | Some e => r.1 = inl e ∧ trace r.2 = (trace w ++ [XSet path element])%list
  end.
Proof.
  intros Hcfg path element r.
  destruct (Hcfg w) as (w1 & H1 & Ht1 & Hx1 & Hp1).
  remember r as r' eqn:Hr. subst r.
  unfold add_address_object, delete_address_object in Hr.
  rewrite bind_unfold in Hr. rewrite bind_unfold, H1 in Hr.
  run. rewrite Hp1, Ht1, Hx1 in Hr. fold path element in Hr.
  destruct (xapi_call (XSet path element) (xapi w)) as [[e|] t] eqn:Hcall;
    simpl in *.
  - by subst r'.
  - match type of Hr with
    | context [set_config_changed ?w0] =>
        destruct (Hcfg w0) as (w2 & H2 & Ht2 & Hx2 & Hp2); rewrite H2 in Hr
    end.
    simpl in *. rewrite Hp2, Ht2, Hp1 in Hr. fold path in Hr. subst r'. simpl.
    by rewrite <- app_assoc.
Qed.

End MoreProperties.

(** ** [refresh_system_info] *)

(** X13: when the [system] dictionary has the four keys, the method
    returns the version, the platform and the serial it has just
    assigned, and [multi_vsys] is set, to true exactly when the value of
    [multi-vsys] is the string "on". *)
Theorem refresh_system_info_returns (system_info : pyval)
  (d : gmap string pyval) (a : SystemInfo.Attrs) (v p s m : pyval) :
  getitem system_info "system" = inr (PyDict d) →
  d !! "sw-version" = Some v → d !! "model" = Some p →
  d !! "serial" = Some s → d !! "multi-vsys" = Some m →
  let r := SystemInfo.refresh_system_info system_info a in
  r.1 = inr (v, p, s)
  ∧ (SystemInfo.version r.2, SystemInfo.platform r.2, SystemInfo.serial r.2)
    = (v, p, s)
  ∧ ∃ b, SystemInfo.multi_vsys r.2 = Some b ∧ (b = true ↔ m = PyStr "on").
Proof.
  intros Hsys Hv Hp Hs Hm.
  unfold SystemInfo.refresh_system_info, SystemInfo.system, mbind, exn_bind.
  rewrite Hsys. simpl. rewrite Hv, Hp, Hs, Hm. simpl.
  split_and!; [done..|]. eexists. split; [done|].
  destruct m as [|x| |]; simpl; try (split; done).
  destruct (String.eqb_spec x "on") as [->|Hx]; split; try done.
  intros [= ->]. done.
Qed.

(** X14: the refresh is not all or nothing.  When the method raises,
    [multi_vsys] is as before, but every attribute whose key was read
    before the failing one has its new value already; only when
    [sw-version] itself cannot be read is nothing changed. *)
Theorem refresh_system_info_raises (system_info : pyval)
  (a : SystemInfo.Attrs) (e : exn) :
  (SystemInfo.refresh_system_info system_info a).1 = inl e →
  let a' := (SystemInfo.refresh_system_info system_info a).2 in
  SystemInfo.multi_vsys a' = SystemInfo.multi_vsys a
  ∧ (∀ e', SystemInfo.system system_info "sw-version" = inl e' → a' = a)
  ∧ (∀ v, SystemInfo.system system_info "sw-version" = inr v →
          SystemInfo.version a' = v)
  ∧ (∀ v p, SystemInfo.system system_info "sw-version" = inr v →
            SystemInfo.system system_info "model" = inr p →
            SystemInfo.platform a' = p)
  ∧ (∀ v p s, SystemInfo.system system_info "sw-version" = inr v →
              SystemInfo.system system_info "model" = inr p →
              SystemInfo.system system_info "serial" = inr s →
              SystemInfo.serial a' = s).
Proof.
  unfold SystemInfo.refresh_system_info.
  destruct (SystemInfo.system system_info "sw-version") as [e1|v];
    [intros _; by split_and!|].
  destruct (SystemInfo.system system_info "model") as [e2|p];
    [intros _; split_and!; try done; by intros ? [= <-]|].
  destruct (SystemInfo.system system_info "serial") as [e3|s];
    [intros _; split_and!; try done;
     [by intros ? [= <-] | by intros ?? [= <-] [= <-]]|].
  destruct (SystemInfo.system system_info "multi-vsys") as [e4|m]; [|done].
  intros _; split_and!; try done.
  - by intros ? [= <-].
  - by intros ?? [= <-] [= <-].
  - by intros ??? [= <-] [= <-] [= <-].
Qed.

(** * The properties on the concrete device *)

(** The two scopes of C1 on the concrete firewall. *)
Lemma xpath_vsys_scope_witness :
  @xpath_vsys Lab.ext (with_vsys "vsys1" (Lab.firewall "shared" ∅))
  = "/config/devices/entry[@name='localhost.localdomain']/vsys/entry[@name='vsys1']"
  ∧ @xpath_vsys Lab.ext (with_vsys "shared" (Lab.firewall "vsys1" ∅))
    = "/config/shared".
Proof.
  split.
  - destruct (@xpath_vsys_scope Lab.ext (Lab.firewall "shared" ∅) "vsys1")
      as [H _]; [done | exact H].
  - destruct (@xpath_vsys_scope Lab.ext (Lab.firewall "vsys1" ∅) "vsys1")
      as (_ & H & _); [done | exact H].
Defined.

(** C8 on the managed firewall: the transport goes to the Panorama and
    targets the serial. *)
Lemma generate_xapi_via_panorama_witness :
  ∃ c k, @generate_xapi Lab.ext Lab.managed = Constructed c k
         ∧ kw_hostname k = Some "panorama.example.com"
         ∧ kw_serial k = "001606000123".
Proof.
  destruct (@generate_xapi_via_panorama Lab.ext Lab.managed) as [[_ Hc] [Hk _]].
  destruct Hc as (c & k & Hck); [split; by eexists|].
  exists c, k. split; [exact Hck|].
  destruct (Hk c k Hck) as (p & Hp & Hh & _ & _ & Hs).
  injection Hp as <-. injection Hs as Hs. by rewrite Hh, <- Hs.
Defined.


(** C9 on the shared scope. *)
Lemma create_delete_skip_witness :
  @create Lab.ext Lab.base (Lab.world "shared" ∅ ∅ PyNone)
  = (inr (), Lab.world "shared" ∅ ∅ PyNone)
  ∧ @delete Lab.ext Lab.base (Lab.world "shared" ∅ ∅ PyNone)
    = (inr (), Lab.world "shared" ∅ ∅ PyNone).
Proof.
  apply (@create_delete_skip Lab.ext Lab.base (Lab.world "shared" ∅ ∅ PyNone)).
  reflexivity.
Defined.

(** C5 (as amended) on a string given for an interface. *)
Lemma add_interface_rejects_witness :
  (@add_interface Lab.ext Lab.base (Other (PyStr "ethernet1/1")) true
     (Lab.world "vsys1" ∅ ∅ PyNone)).1
  = inl (TypeError (Some "set_interface argument must be of type Interface")).
Proof.
  rewrite (@add_interface_rejects Lab.ext Lab.base (PyStr "ethernet1/1") true
             (Lab.world "vsys1" ∅ ∅ PyNone)
             (@set_config_changed Lab.ext Lab.base (Lab.world "vsys1" ∅ ∅ PyNone)).2
             eq_refl).
  reflexivity.
Defined.

(** C5, the claim as written fails: the call with a string as argument
    raises the [TypeError], and the change flag, unset before, is set. *)
Lemma add_interface_marks_change :
  let w := Lab.world "vsys1" ∅ ∅ PyNone in
  let r := @add_interface Lab.ext Lab.base (Other (PyStr "ethernet1/1")) true w in
  r.1 = inl (TypeError (Some "set_interface argument must be of type Interface"))
  ∧ config_changed (fw w) = false
  ∧ config_changed (fw r.2) = true
  ∧ interfaces (fw r.2) = interfaces (fw w).
Proof. repeat split. Qed.

(** C6 at a concrete input: the subinterface at address 3 is deleted with
    [delete_empty_parent], its parent at address 2 has no subinterface
    left, and the name of the parent is still in the index afterwards. *)
Lemma delete_interface_index_witness :
  let w := Lab.world "vsys1" Lab.objs Lab.index PyNone in
  let r := @delete_interface Lab.ext Lab.base 3%positive false true w in
  interfaces (fw r.2) !! Some "ethernet1/1.5" = None
  ∧ interfaces (fw r.2) !! Some "ethernet1/1" = Some 2%positive.
Proof.
  cbv zeta.
  destruct (@delete_interface_index Lab.ext Lab.base 3%positive
              (Lab.eth "ethernet1/1.5" (Some 2%positive)) false true
              (Lab.world "vsys1" Lab.objs Lab.index PyNone)
              (@set_config_changed Lab.ext Lab.base
                 (Lab.world "vsys1" Lab.objs Lab.index PyNone)).2
              eq_refl eq_refl) as [Hall Hother]; [discriminate|].
  split.
  - rewrite Hall. reflexivity.
  - rewrite Hother by discriminate. reflexivity.
Defined.

(** C3 (as amended) on a response with one interface. *)
Lemma refresh_interfaces_index_witness :
  let w := Lab.world "vsys1" Lab.objs Lab.index Lab.doc_one in
  ∃ result,
    envelope (received w) = inr result
    ∧ ((interfaces (fw (@refresh_interfaces Lab.ext w).2) = interfaces (fw w)
        ∧ (get result "hw" (PyDict ∅) = inr PyNone
           ∨ get result "ifnet" (PyDict ∅) = inr PyNone))
       ∨ ∃ c items,
           get result "ifnet" (PyDict ∅) = inr c
           ∧ (get c "entry" (PyList []) ≫= iter) = inr items
           ∧ ∀ k, is_Some (interfaces (fw (@refresh_interfaces Lab.ext w).2) !! k)
                  ↔ ∃ e, e ∈ items ∧ entry_key e = inr k).
Proof.
  apply (@refresh_interfaces_index Lab.ext
           (Lab.world "vsys1" Lab.objs Lab.index Lab.doc_one)
           (@refresh_interfaces Lab.ext
              (Lab.world "vsys1" Lab.objs Lab.index Lab.doc_one)).2).
  vm_compute. reflexivity.
Defined.

(** C3, the claim as written fails: the index holds ethernet1/1, the
    response lists ethernet1/2 only, the refresh returns, and ethernet1/1
    is no longer in the index. *)
Lemma refresh_interfaces_drops_local :
  let w := Lab.world "vsys1" Lab.objs Lab.index Lab.doc_one in
  let r := @refresh_interfaces Lab.ext w in
  interfaces (fw w) !! Some "ethernet1/1" = Some 2%positive
  ∧ r.1 = inr ()
  ∧ interfaces (fw r.2) !! Some "ethernet1/1" = None
  ∧ is_Some (interfaces (fw r.2) !! Some "ethernet1/2").
Proof. vm_compute. repeat split. by eexists. Qed.



(** An empty result is the other way into the error of C4. *)
Example refresh_interfaces_empty_result :
  (@refresh_interfaces Lab.ext
     (Lab.world "vsys1" Lab.objs Lab.index Lab.doc_empty_result)).1
  = inl (PanDeviceError "Could not refresh interfaces").
Proof. vm_compute. reflexivity. Qed.

(** [create] on a vsys scope: one set of the vsys entry under the device. *)
Example create_vsys1 :
  trace (@create Lab.ext Lab.base (Lab.world "vsys1" ∅ ∅ PyNone)).2
  = [XSet "/config/devices/entry[@name='localhost.localdomain']/vsys"
          ("<entry name=" +:+ dquote +:+ "vsys1" +:+ dquote +:+ " />")].
Proof. vm_compute. reflexivity. Qed.

(** * More properties on the concrete device *)

(** X2 on the refresh that drops ethernet1/1: the object is still there. *)
Lemma refresh_interfaces_keeps_objects_witness :
  store (@refresh_interfaces Lab.ext
           (Lab.world "vsys1" Lab.objs Lab.index Lab.doc_one)).2 !! 2%positive
  = Some (Lab.eth "ethernet1/1" None).
Proof.
  apply (refresh_interfaces_keeps_objects (Ext := Lab.ext)
           (Lab.world "vsys1" Lab.objs Lab.index Lab.doc_one)).
  reflexivity.
Defined.

(** X3 on a response without the [result] element. *)
Lemma refresh_interfaces_raise_keeps_firewall_witness :
  fw (@refresh_interfaces Lab.ext
        (Lab.world "vsys1" Lab.objs Lab.index Lab.doc_no_result)).2
  = Lab.firewall "vsys1" Lab.index.
Proof.
  apply (refresh_interfaces_raise_keeps_firewall (Ext := Lab.ext)
           (Lab.world "vsys1" Lab.objs Lab.index Lab.doc_no_result)
           (PanDeviceError "Error reading response while refreshing interfaces")).
  vm_compute. reflexivity.
Defined.

(** X4 on a response with one interface. *)
Lemma refresh_interfaces_index_objects_witness :
  let w := Lab.world "vsys1" Lab.objs Lab.index Lab.doc_one in
  let w' := (@refresh_interfaces Lab.ext w).2 in
  ∃ result,
    envelope (received w) = inr result
    ∧ ((interfaces (fw w') = interfaces (fw w)
        ∧ (get result "hw" (PyDict ∅) = inr PyNone
           ∨ get result "ifnet" (PyDict ∅) = inr PyNone))
       ∨ ∀ k l, interfaces (fw w') !! k = Some l →
           store w !! l = None
           ∧ ∃ i, store w' !! l = Some i ∧ name i = k).
Proof.
  apply (refresh_interfaces_index_objects (Ext := Lab.ext)
           (Lab.world "vsys1" Lab.objs Lab.index Lab.doc_one)).
  vm_compute. reflexivity.
Defined.

(** X15 on the same response. *)
Lemma refresh_interfaces_state_witness :
  let w := Lab.world "vsys1" Lab.objs Lab.index Lab.doc_one in
  let w' := (@refresh_interfaces Lab.ext w).2 in
  ∃ result,
    envelope (received w) = inr result
    ∧ ((interfaces (fw w') = interfaces (fw w)
        ∧ (get result "hw" (PyDict ∅) = inr PyNone
           ∨ get result "ifnet" (PyDict ∅) = inr PyNone))
       ∨ ∃ hw_c hw_items,
           get result "hw" (PyDict ∅) = inr hw_c
           ∧ (get hw_c "entry" (PyList []) ≫= iter) = inr hw_items
           ∧ ∀ k l i,
               interfaces (fw w') !! k = Some l → store w' !! l = Some i →
               ((∀ h, h ∈ hw_items → entry_key h = inr k → False) →
                state i = PyNone)
               ∧ ((∃ h, h ∈ hw_items ∧ entry_key h = inr k) →
                  ∃ h, h ∈ hw_items ∧ entry_key h = inr k
                       ∧ get h "state" PyNone = inr (state i))).
Proof.
  apply (refresh_interfaces_state (Ext := Lab.ext)
           (Lab.world "vsys1" Lab.objs Lab.index Lab.doc_one)).
  vm_compute. reflexivity.
Defined.


(** X6 on the subinterface at address 3, whose parent is at address 2. *)
Lemma add_interface_index_witness :
  let r := @add_interface Lab.ext Lab.base (AnInterface 3%positive) false
             (Lab.world "vsys1" Lab.objs ∅ PyNone) in
  r.1 = inr ()
  ∧ interfaces (fw r.2) !! Some "ethernet1/1.5" = Some 3%positive.
Proof.
  destruct (add_interface_index (Ext := Lab.ext) (Bs := Lab.base) 3%positive
              (Lab.eth "ethernet1/1.5" (Some 2%positive))
              (Lab.world "vsys1" Lab.objs ∅ PyNone)
              (@set_config_changed Lab.ext Lab.base
                 (Lab.world "vsys1" Lab.objs ∅ PyNone)).2
              eq_refl eq_refl) as (H1 & _ & H3 & _).
  - intros p [= <-]. by eexists.
  - split; [exact H1 | exact H3].
Defined.

(** X7 on an interface that is in the store and not in the index. *)
Lemma delete_interface_unapplied_witness :
  let r := @delete_interface Lab.ext Lab.base 2%positive false true
             (Lab.world "vsys1" Lab.objs ∅ PyNone) in
  r.1 = inr () ∧ interfaces (fw r.2) = ∅.
Proof.
  destruct (delete_interface_unapplied (Ext := Lab.ext) (Bs := Lab.base)
              2%positive (Lab.eth "ethernet1/1" None) true
              (Lab.world "vsys1" Lab.objs ∅ PyNone)
              (@set_config_changed Lab.ext Lab.base
                 (Lab.world "vsys1" Lab.objs ∅ PyNone)).2
              eq_refl eq_refl) as (H1 & _ & _ & H4).
  - intros p [=].
  - split; [exact H1 | exact (H4 eq_refl)].
Defined.

(** The change flag of the concrete device touches nothing else. *)
Lemma lab_set_config_changed (w0 : @World Lab.ext) :
  ∃ w1, @set_config_changed Lab.ext Lab.base w0 = (inr (), w1)
        ∧ store w1 = store w0
        ∧ interfaces (fw w1) = interfaces (fw w0).
Proof. eexists. split_and!; reflexivity. Defined.

(** X8 on the interface at address 2, which has no parent. *)
Lemma add_then_delete_interface_witness :
  let r := (@add_interface Lab.ext Lab.base (AnInterface 2%positive) false
            ≫= λ _, @delete_interface Lab.ext Lab.base 2%positive false false)
             (Lab.world "vsys1" Lab.objs ∅ PyNone) in
  r.1 = inr () ∧ interfaces (fw r.2) = ∅.
Proof.
  destruct (add_then_delete_interface (Ext := Lab.ext) (Bs := Lab.base)
              2%positive (Lab.eth "ethernet1/1" None) false
              (Lab.world "vsys1" Lab.objs ∅ PyNone)
              lab_set_config_changed eq_refl eq_refl) as (H1 & _ & H3 & _).
  split; [exact H1 | exact (H3 eq_refl)].
Defined.

(** X9 on two firewalls of one vsys. *)
Lemma xpath_vsys_inj_witness :
  vsys (Lab.firewall "vsys1" ∅) = vsys (Lab.firewall "vsys1" Lab.index).
Proof.
  apply (xpath_vsys_inj (Ext := Lab.ext)). reflexivity.
Defined.

(** X10 on vsys1. *)
Lemma vsys_entry_paths_witness :
  trace (@delete Lab.ext Lab.base (Lab.world "vsys1" ∅ ∅ PyNone)).2
  = [XDelete "/config/devices/entry[@name='localhost.localdomain']/vsys/entry[@name='vsys1']"].
Proof.
  destruct (vsys_entry_paths (Ext := Lab.ext) (Bs := Lab.base)
              (Lab.world "vsys1" ∅ ∅ PyNone) eq_refl eq_refl) as (_ & H & _).
  exact H.
Defined.

(** X11 on a string. *)
Lemma interface_name_cases_witness :
  (@_interface_name Lab.ext (Other (PyStr "ethernet1/1"))
     (Lab.world "vsys1" ∅ ∅ PyNone)).1
  = inr (Some "ethernet1/1").
Proof.
  destruct (interface_name_cases (Ext := Lab.ext) (Other (PyStr "ethernet1/1"))
              (Lab.world "vsys1" ∅ ∅ PyNone)) as (_ & H & _).
  exact (H "ethernet1/1" eq_refl).
Defined.

(** X12 on the address object of the specification's example. *)
Lemma add_then_delete_address_object_witness :
  trace ((@add_address_object Lab.ext Lab.base "web-server-1" "10.1.1.5/32" "prod web"
          ≫= λ _, @delete_address_object Lab.ext Lab.base "web-server-1")
           (Lab.world "shared" ∅ ∅ PyNone)).2
  = [XSet "/config/shared/address/entry[@name='web-server-1']"
          "<ip-netmask>10.1.1.5/32</ip-netmask><description>prod web</description>";
     XDelete "/config/shared/address/entry[@name='web-server-1']"].
Proof.
  apply (add_then_delete_address_object (Ext := Lab.ext) (Bs := Lab.base)
           "web-server-1" "10.1.1.5/32" "prod web"
           (Lab.world "shared" ∅ ∅ PyNone)).
  intros w0. eexists. split_and!; reflexivity.
Defined.

(** X13 on a firewall with several vsys. *)
Lemma refresh_system_info_returns_witness :
  (SystemInfo.refresh_system_info Lab.system_info Lab.attrs).1
  = inr (PyStr "7.0.1", PyStr "PA-3020", PyStr "001606000123").
Proof.
  destruct (refresh_system_info_returns Lab.system_info
              (list_to_map [("sw-version", PyStr "7.0.1");
                            ("model", PyStr "PA-3020");
                            ("serial", PyStr "001606000123");
                            ("multi-vsys", PyStr "on")])
              Lab.attrs (PyStr "7.0.1") (PyStr "PA-3020")
              (PyStr "001606000123") (PyStr "on")
              eq_refl eq_refl eq_refl eq_refl eq_refl) as [H _].
  exact H.
Defined.

(** X14 on a response without [multi-vsys]: a [KeyError], and the
    version is the new one. *)
Lemma refresh_system_info_raises_witness :
  SystemInfo.version
    (SystemInfo.refresh_system_info Lab.system_info_short Lab.attrs).2
  = PyStr "7.0.1".
Proof.
  destruct (refresh_system_info_raises Lab.system_info_short Lab.attrs
              (KeyError "multi-vsys") eq_refl) as (_ & _ & H & _).
  exact (H (PyStr "7.0.1") eq_refl).
Defined.

(** X16 on a response whose only interface has no [fwd]. *)
Lemma refresh_interfaces_entry_without_fwd_witness :
  (@refresh_interfaces Lab.ext
     (Lab.world "vsys1" Lab.objs Lab.index Lab.doc_no_fwd)).1
  = inl (KeyError "fwd").
Proof.
  destruct (refresh_interfaces_entry_without_fwd (Ext := Lab.ext)
              (Lab.world "vsys1" Lab.objs Lab.index Lab.doc_no_fwd)
              (list_to_map [("ifnet", Lab.dict [("entry",
                              PyList [Lab.dict [("name", PyStr "ethernet1/2")]])])])
              (list_to_map [("entry", PyList [Lab.dict [("name", PyStr "ethernet1/2")]])])
              (list_to_map [("name", PyStr "ethernet1/2")]) []
              eq_refl eq_refl eq_refl eq_refl eq_refl eq_refl) as [H _].
  exact H.
Defined.
